(** * CKAN PM2.5 data extractor: fetch, cache, filter, aggregate

    A shallow embedding of [CKAN_PM25_DataExtractor.py].  The script is one
    long top-level block; the definitions below follow it from top to
    bottom and keep its variable names.

    Numbers.  JSON numbers and pandas' float64 columns are read as exact
    rationals ([Q]); [NaN] is [None].  Floating-point rounding error is the
    one thing this reading leaves out.

    Time.  [recording_timestamp] is the instant [pd.to_datetime] reads, in
    seconds since the epoch; a calendar day is a day number since the
    epoch.  A column of timestamp texts that [pd.to_datetime] rejects
    (line 161 then raises into the window's handler) has no counterpart
    here. *)

From Stdlib Require Import ZArith QArith Lqa List Bool Lia.
From stdpp Require Import gmap strings list fin_maps.
From Stdlib Require Import Ascii.
From Stdlib Require Import Sorted.

(** ** Records and data frames *)

(** One entry of a JSON dict: the key can be absent, hold [null], or hold a
    value. *)
Inductive cell (A : Type) : Type :=
  | Absent
  | Null
  | Val (a : A).
Arguments Absent {A}.
Arguments Null {A}.
Arguments Val {A} a.

(** What a data-frame column shows for the entry: absent keys and nulls are
    both NaN. *)
Definition value {A : Type} (c : cell A) : option A :=
  match c with
  | Val a => Some a
  | _ => None
  end.

Definition has_key {A : Type} (c : cell A) : bool :=
  match c with
  | Absent => false
  | _ => true
  end.

(** A raw record, as the remote source returns it and as the cache file
    stores it.  The query projects fifteen columns; the six the pipeline
    reads are kept.  [pm2_5] and [version_major] are the two the script
    guards with ["..." in df]. *)
Record RawRecord : Type := mkRecord {
  entity_id : string;
  recording_timestamp : Z;
  latitude : Q;
  longitude : Q;
  pm2_5 : cell Q;
  version_major : cell string
}.

Definition set_pm2_5 (r : RawRecord) (c : cell Q) : RawRecord :=
  {| entity_id := entity_id r;
     recording_timestamp := recording_timestamp r;
     latitude := latitude r;
     longitude := longitude r;
     pm2_5 := c;
     version_major := version_major r |}.

(** [pd.DataFrame(all_records)]: the rows, and which of the two guarded
    columns exist.  A column exists as soon as one record has the key, and
    it keeps existing when rows are dropped. *)
Record DataFrame : Type := mkDataFrame {
  has_pm2_5 : bool;
  has_version_major : bool;
  rows : list RawRecord
}.

Definition mk_DataFrame (all_records : list RawRecord) : DataFrame :=
  {| has_pm2_5 := existsb (fun r => has_key (pm2_5 r)) all_records;
     has_version_major := existsb (fun r => has_key (version_major r)) all_records;
     rows := all_records |}.

(** [df.empty].  Every record carries the four unguarded columns, so the
    frame is empty exactly when it has no rows. *)
Definition empty (df : DataFrame) : bool :=
  match rows df with
  | [] => true
  | _ => false
  end.

Definition with_rows (df : DataFrame) (rs : list RawRecord) : DataFrame :=
  {| has_pm2_5 := has_pm2_5 df;
     has_version_major := has_version_major df;
     rows := rs |}.

(** ** Normalization (lines 134-138) *)

Definition Qlt_bool (x y : Q) : bool := negb (Qle_bool y x).

(** [(df["pm2_5"] > 0) & (df["pm2_5"] <= 10000)]; a comparison with NaN is
    false. *)
Definition in_range (r : RawRecord) : bool :=
  match value (pm2_5 r) with
  | Some v => Qlt_bool 0 v && Qle_bool v 10000
  | None => false
  end.

Definition range_filter (df : DataFrame) : DataFrame :=
  if negb (empty df) && has_pm2_5 df
  then with_rows df (filter (fun r => in_range r = true) (rows df))
  else df.

Definition is_version_1 (r : RawRecord) : bool :=
  match value (version_major r) with
  | Some s => bool_decide (s = "1")
  | None => false
  end.

(** [df.loc[df["version_major"] == "1", "pm2_5"] *= 100] on one row; NaN
    times 100 is NaN. *)
Definition scale_row (r : RawRecord) : RawRecord :=
  if is_version_1 r
  then match pm2_5 r with
       | Val v => set_pm2_5 r (Val (v * 100)%Q)
       | _ => r
       end
  else r.

Definition scale_correction (df : DataFrame) : DataFrame :=
  if negb (empty df) && has_version_major df && has_pm2_5 df
  then with_rows df (map scale_row (rows df))
  else df.

Definition normalize (all_records : list RawRecord) : DataFrame :=
  scale_correction (range_filter (mk_DataFrame all_records)).

(** ** Spatial filter (line 160) *)

(** The polygon of an area, as the test [Point(longitude, latitude) within
    polygon] sees it. *)
Definition Polygon : Type := Q -> Q -> bool.

(** [gdf[gdf.within(polygon)].copy()] *)
Definition within (df : DataFrame) (polygon : Polygon) : DataFrame :=
  with_rows df
    (filter (fun r => polygon (longitude r) (latitude r) = true) (rows df)).

(** ** Temporal aggregation (lines 172-228) *)

Definition day_of (ts : Z) : Z := (ts / 86400)%Z.

(** The [pm2_5] column of a frame, NaN entries skipped, as [mean] and
    [median] read it. *)
Definition pm2_5_values (rs : list RawRecord) : list Q :=
  omap (fun r => value (pm2_5 r)) rs.

Definition Qsum (vs : list Q) : Q := fold_right Qplus 0%Q vs.

Definition mean (vs : list Q) : option Q :=
  match vs with
  | [] => None
  | _ => Some (Qsum vs / inject_Z (Z.of_nat (length vs)))%Q
  end.

Fixpoint insert_sorted (x : Q) (vs : list Q) : list Q :=
  match vs with
  | [] => [x]
  | y :: vs' => if Qle_bool x y then x :: vs else y :: insert_sorted x vs'
  end.

Definition sort_values (vs : list Q) : list Q :=
  fold_right insert_sorted [] vs.

(** The middle value, or the average of the two middle values. *)
Definition median (vs : list Q) : option Q :=
  let sorted := sort_values vs in
  let n := length sorted in
  match n with
  | O => None
  | _ =>
    if Nat.even n
    then Some ((nth (n / 2 - 1) sorted 0 + nth (n / 2) sorted 0) / 2)%Q
    else Some (nth (n / 2) sorted 0%Q)
  end.

(** One row of [daily_stats] before the presentation steps: the day and the
    two aggregates, NaN as [None]. *)
Definition DailyRow : Type := Z * option Q * option Q.

Definition on_day (day : Z) (rs : list RawRecord) : list RawRecord :=
  filter (fun r => day_of (recording_timestamp r) = day) rs.

Definition agg_day (rs : list RawRecord) (day : Z) : DailyRow :=
  (day, mean (pm2_5_values (on_day day rs)), median (pm2_5_values (on_day day rs))).

(** [.set_index("recording_timestamp").resample("D").agg(...)]: one bin per
    day from the earliest to the latest day that has a record; bins without
    records are kept, with NaN. *)
Definition resample_D (rs : list RawRecord) : list DailyRow :=
  match map (fun r => day_of (recording_timestamp r)) rs with
  | [] => []
  | d :: ds =>
    let first := fold_right Z.min d ds in
    let last := fold_right Z.max d ds in
    map (agg_day rs) (seqZ first (last - first + 1))
  end.

(** [pd.date_range(start=start_date, end=end_date, freq="D")] *)
Definition date_range (start_day end_day : Z) : list Z :=
  seqZ start_day (end_day - start_day + 1).

(** [.set_index("Date").reindex(date_range).reset_index()]: the row of each
    day of the new index, or a NaN row. *)
Definition reindex (daily : list DailyRow) (days : list Z) : list DailyRow :=
  map (fun day =>
         match find (fun row => bool_decide (row.1.1 = day)) daily with
         | Some row => (day, row.1.2, row.2)
         | None => (day, None, None)
         end) days.

(** Round half to even to an integer, as numpy's [round] does. *)
Definition rint (q : Q) : Z :=
  let n := Qnum q in
  let d := Z.pos (Qden q) in
  let f := (n / d)%Z in
  let r := (2 * (n mod d))%Z in
  if (r <? d)%Z then f
  else if (d <? r)%Z then (f + 1)%Z
  else if Z.even f then f else (f + 1)%Z.

(** [.round(2)] *)
Definition round2 (q : Q) : Q := Qred (rint (q * 100) # 100).

(** A cell of a statistics table. *)
Inductive stat : Type :=
  | Num (q : Q)
  | NaN
  | missing.

Inductive date_cell : Type :=
  | Day (d : Z)
  | Overall.

Record StatsRow : Type := mkStatsRow {
  Date : date_cell;
  PM2_5_Average : stat;
  PM2_5_Median : stat
}.

Definition StatsTable : Type := list StatsRow.

(** Division by 100, then [.round(2)]: NaN stays NaN. *)
Definition present (o : option Q) : option Q :=
  option_map (fun q => round2 (q / 100)) o.

(** [.fillna("missing")], the last step of the daily block. *)
Definition fillna (o : option Q) : stat :=
  match o with
  | Some q => Num q
  | None => missing
  end.

(** The overall row is rounded but never filled. *)
Definition no_fillna (o : option Q) : stat :=
  match o with
  | Some q => Num q
  | None => NaN
  end.

Definition daily_row (row : DailyRow) : StatsRow :=
  {| Date := Day row.1.1;
     PM2_5_Average := fillna (present row.1.2);
     PM2_5_Median := fillna (present row.2) |}.

(** Python exceptions the model raises. *)
Inductive exn : Type :=
  | KeyError (key : string)
  | NameError (name : string)
  | JSONDecodeError
  | AttributeError
  | TypeError.

(** The body of the daily-statistics [try] block (lines 174-200). *)
Definition compute_daily_stats (gdf_within_geojson : DataFrame)
    (start_day end_day : Z) : exn + StatsTable :=
  if has_pm2_5 gdf_within_geojson
  then inr (map daily_row
              (reindex (resample_D (rows gdf_within_geojson))
                       (date_range start_day end_day)))
  else inl (KeyError "pm2_5").

(** The body of the overall-statistics [try] block (lines 207-218). *)
Definition compute_overall_stats (gdf_within_geojson : DataFrame)
    : exn + StatsTable :=
  if has_pm2_5 gdf_within_geojson
  then
    let vs := pm2_5_values (rows gdf_within_geojson) in
    inr [ {| Date := Overall;
             PM2_5_Average :=
               no_fillna (present (mean vs));
             PM2_5_Median :=
               no_fillna (present (median vs)) |} ]
  else inl (KeyError "pm2_5").

(** [pd.concat([daily_stats, overall_stats], ignore_index=True)] *)
Definition concat_stats (daily_stats overall_stats : StatsTable) : StatsTable :=
  daily_stats ++ overall_stats.

(** ** The run: configuration, remote source, and program state *)

(** One entry of [date_ranges]: the two literal strings, and the day
    numbers [pd.date_range] reads from them. *)
Record DateWindow : Type := mkWindow {
  start_date : string;
  end_date : string;
  start_day : Z;
  end_day : Z
}.

(** What lines 152-158 make of the file of an area: [gpd.read_file]
    raises; or it returns a frame whose ["geometry"][0] does not exist, so
    that line 158 raises; or line 158 gets a polygon. *)
Inductive geojson : Type :=
  | Unreadable
  | NoGeometry
  | Geometry (polygon : Polygon).

(** One entry of [geojson_files]: the name and the file. *)
Record Area : Type := mkArea {
  location_name : string;
  read_file : geojson
}.

Definition limit : Z := 10000.
Definition output_folder : string := "data3".

(** The parameters the script puts into [sql_query]. *)
Record Query : Type := mkQuery {
  q_start_date : string;
  q_end_date : string;
  q_limit : Z;
  q_offset : Z
}.

(** What one [requests.get] leads to. *)
Inductive response : Type :=
  | ConnectionError                      (* requests.get raises *)
  | HTTPError                            (* raise_for_status raises *)
  | InvalidJSON                          (* response.json() raises *)
  | Malformed (e : exn)                  (* the body decodes, line 120 or 123
                                            raises: result is null, the body
                                            is no object, records is no list *)
  | Records (records : list RawRecord).  (* result.records, or [] *)

(** The remote source during one run.  Within one window every request has
    a different offset, so a function of the query covers a source that
    changes between pages. *)
Definition Remote : Type := Query -> response.

(** The lines the script prints. *)
Inductive message : Type :=
  | LoadingCache (path : string)
  | HTTPErrorOccurred
  | FetchingError
  | Fetching (offset : Z)
  | DataCached (path : string)
  | NoDataFound (start_date end_date : string)
  | ErrorReadingGeoJSON (location_name : string)
  | NoDataFor (location_name start_date end_date : string)
  | ErrorDailyStats (location_name : string) (e : exn)
  | ErrorOverallStats (location_name : string) (e : exn)
  | RecordsSaved (location_name start_date end_date : string)
  | ErrorSaving (location_name : string) (e : exn)
  | ErrorDateRange (start_date end_date : string) (e : exn).

(** Everything the loops read and write: the files of records in the
    output folder (cache files and extracts), the requests sent, the
    console, the two top-level variables that outlive a loop iteration, the
    summary list, and the log of the extracts written.  A variable that has
    not been assigned yet is [None]. *)
Record State : Type := mkState {
  files : gmap string (list RawRecord);
  requests : list Query;
  console : list message;
  daily_stats : option StatsTable;
  overall_stats : option StatsTable;
  all_stats_sections : list (string * StatsTable);
  csv_files : list (string * list RawRecord)
}.

Definition print (m : message) (st : State) : State :=
  mkState (files st) (requests st) (console st ++ [m]) (daily_stats st)
          (overall_stats st) (all_stats_sections st) (csv_files st).

Definition send (q : Query) (st : State) : State :=
  mkState (files st) (requests st ++ [q]) (console st) (daily_stats st)
          (overall_stats st) (all_stats_sections st) (csv_files st).

Definition json_dump (path : string) (all_records : list RawRecord) (st : State) : State :=
  mkState (<[path := all_records]> (files st)) (requests st) (console st)
          (daily_stats st) (overall_stats st) (all_stats_sections st) (csv_files st).

Definition assign_daily_stats (t : StatsTable) (st : State) : State :=
  mkState (files st) (requests st) (console st) (Some t)
          (overall_stats st) (all_stats_sections st) (csv_files st).

Definition assign_overall_stats (t : StatsTable) (st : State) : State :=
  mkState (files st) (requests st) (console st) (daily_stats st)
          (Some t) (all_stats_sections st) (csv_files st).

Definition append_section (label : string) (stats_df : StatsTable) (st : State) : State :=
  mkState (files st) (requests st) (console st) (daily_stats st)
          (overall_stats st) (all_stats_sections st ++ [(label, stats_df)]) (csv_files st).

(** [to_csv] creates the file or overwrites it. *)
Definition to_csv (path : string) (rs : list RawRecord) (st : State) : State :=
  mkState (<[path := rs]> (files st)) (requests st) (console st) (daily_stats st)
          (overall_stats st) (all_stats_sections st) (csv_files st ++ [(path, rs)]).

(** The state a run starts in, given the files already on disk. *)
Definition initial (fs : gmap string (list RawRecord)) : State :=
  mkState fs [] [] None None [] [].

(** ** Pagination (lines 82-124) *)

Definition query (w : DateWindow) (offset : Z) : Query :=
  {| q_start_date := start_date w;
     q_end_date := end_date w;
     q_limit := limit;
     q_offset := offset |}.

(** The [while True] loop.  [fuel] bounds the number of requests; [None]
    means the loop is still running when the fuel is gone.  An exception
    that leaves the loop is [inl]. *)
Fixpoint fetch_loop (fuel : nat) (remote : Remote) (w : DateWindow)
    (offset : Z) (all_records : list RawRecord) (st : State)
    : option ((exn + list RawRecord) * State) :=
  match fuel with
  | O => None
  | S fuel' =>
    let st := send (query w offset) st in
    match remote (query w offset) with
    | HTTPError => Some (inr all_records, print HTTPErrorOccurred st)
    | ConnectionError => Some (inr all_records, print FetchingError st)
    | InvalidJSON => Some (inl JSONDecodeError, print (Fetching offset) st)
    | Malformed e => Some (inl e, print (Fetching offset) st)
    | Records records =>
      let st := print (Fetching offset) st in
      match records with
      | [] => Some (inr all_records, st)
      | _ => fetch_loop fuel' remote w (offset + limit)%Z (all_records ++ records) st
      end
    end
  end.

(** ** Cache (lines 72-129) *)

Definition cache_file_path (w : DateWindow) : string :=
  output_folder +:+ "/" +:+
  ("api_cache_" +:+ start_date w +:+ "_to_" +:+ end_date w +:+ ".json").

(** The [if os.path.isfile(cache_file_path)] block: the records the window
    works with, and the state after the block. *)
Definition load_or_fetch (fuel : nat) (remote : Remote) (w : DateWindow)
    (st : State) : option ((exn + list RawRecord) * State) :=
  match files st !! cache_file_path w with
  | Some all_records =>
    Some (inr all_records, print (LoadingCache (cache_file_path w)) st)
  | None =>
    match fetch_loop fuel remote w 0 [] st with
    | None => None
    | Some (inl e, st) => Some (inl e, st)
    | Some (inr all_records, st) =>
      Some (inr all_records,
            print (DataCached (cache_file_path w))
                  (json_dump (cache_file_path w) all_records st))
    end
  end.

(** ** Orchestration (lines 70-267) *)

Definition section_label (location_name : string) (w : DateWindow) : string :=
  location_name +:+ " (" +:+ start_date w +:+ " to " +:+ end_date w +:+ ")".

Definition csv_file_path (location_name : string) (w : DateWindow) : string :=
  output_folder +:+ "/" +:+
  (location_name +:+ "_data_" +:+ start_date w +:+ "_to_" +:+ end_date w +:+ ".csv").

(** [gdf_within_geojson_to_save["pm2_5"] / 100] on one row. *)
Definition to_save (r : RawRecord) : RawRecord :=
  match pm2_5 r with
  | Val v => set_pm2_5 r (Val (v / 100)%Q)
  | _ => r
  end.

(** The saving [try] block (lines 236-261), as far as the extract goes. *)
Definition save_block (location_name : string) (w : DateWindow)
    (gdf_within_geojson : DataFrame) (st : State) : State :=
  if has_pm2_5 gdf_within_geojson
  then print (RecordsSaved location_name (start_date w) (end_date w))
         (to_csv (csv_file_path location_name w)
                 (map to_save (rows gdf_within_geojson)) st)
  else print (ErrorSaving location_name (KeyError "pm2_5")) st.

(** The daily-statistics [try]/[except] (lines 172-203): on success the
    variable is assigned, on failure the handler prints and the script
    goes on to the next statement. *)
Definition daily_block (location_name : string) (w : DateWindow)
    (gdf_within_geojson : DataFrame) (st : State) : State :=
  match compute_daily_stats gdf_within_geojson (start_day w) (end_day w) with
  | inr t => assign_daily_stats t st
  | inl e => print (ErrorDailyStats location_name e) st
  end.

(** The overall-statistics [try]/[except] (lines 205-223). *)
Definition overall_block (location_name : string)
    (gdf_within_geojson : DataFrame) (st : State) : State :=
  match compute_overall_stats gdf_within_geojson with
  | inr t => assign_overall_stats t st
  | inl e => print (ErrorOverallStats location_name e) st
  end.

(** One iteration of [for location_name, geojson_path in ...] (lines
    151-261).  [Some e] is an exception that leaves the iteration. *)
Definition location_body (w : DateWindow) (gdf : DataFrame) (area : Area)
    (st : State) : option exn * State :=
  match read_file area with
  | Unreadable => (None, print (ErrorReadingGeoJSON (location_name area)) st)
  | NoGeometry => (Some (KeyError "0"), st)
  | Geometry polygon =>
    let gdf_within_geojson := within gdf polygon in
    if empty gdf_within_geojson
    then (None, print (NoDataFor (location_name area) (start_date w) (end_date w)) st)
    else
      let st := daily_block (location_name area) w gdf_within_geojson st in
      let st := overall_block (location_name area) gdf_within_geojson st in
      match daily_stats st, overall_stats st with
      | None, _ => (Some (NameError "daily_stats"), st)
      | Some _, None => (Some (NameError "overall_stats"), st)
      | Some daily, Some overall =>
        let stats_df := concat_stats daily overall in
        let st := append_section (section_label (location_name area) w) stats_df st in
        (None, save_block (location_name area) w gdf_within_geojson st)
      end
  end.

Fixpoint locations_loop (w : DateWindow) (gdf : DataFrame) (areas : list Area)
    (st : State) : option exn * State :=
  match areas with
  | [] => (None, st)
  | area :: areas' =>
    match location_body w gdf area st with
    | (Some e, st) => (Some e, st)
    | (None, st) => locations_loop w gdf areas' st
    end
  end.

(** Lines 131-261: what the window does with its records. *)
Definition process_records (areas : list Area) (w : DateWindow)
    (all_records : list RawRecord) (st : State) : option exn * State :=
  let df := normalize all_records in
  if empty df
  then (None, print (NoDataFound (start_date w) (end_date w)) st)
  else locations_loop w df areas st.

(** The [except Exception] of the window (lines 263-267). *)
Definition except_date_range (w : DateWindow) (res : option exn * State) : State :=
  match res with
  | (Some e, st) => print (ErrorDateRange (start_date w) (end_date w) e) st
  | (None, st) => st
  end.

(** One iteration of [for start_date, end_date in date_ranges] with its
    [try]/[except Exception] (lines 71-267). *)
Definition date_range_body (fuel : nat) (remote : Remote) (areas : list Area)
    (w : DateWindow) (st : State) : option State :=
  match load_or_fetch fuel remote w st with
  | None => None
  | Some (inl e, st) => Some (except_date_range w (Some e, st))
  | Some (inr all_records, st) =>
    Some (except_date_range w (process_records areas w all_records st))
  end.

Fixpoint date_ranges_loop (fuel : nat) (remote : Remote) (areas : list Area)
    (date_ranges : list DateWindow) (st : State) : option State :=
  match date_ranges with
  | [] => Some st
  | w :: date_ranges' =>
    match date_range_body fuel remote areas w st with
    | None => None
    | Some st => date_ranges_loop fuel remote areas date_ranges' st
    end
  end.

(** One execution of the script against the files on disk. *)
Definition run (fuel : nat) (remote : Remote) (areas : list Area)
    (date_ranges : list DateWindow) (fs : gmap string (list RawRecord))
    : option State :=
  date_ranges_loop fuel remote areas date_ranges (initial fs).

(** The value the scale block leaves in a row that held [v]. *)
Definition scaled (r : RawRecord) (v : Q) : Q :=
  if is_version_1 r then (v * 100)%Q else v.

(** ** Sample data *)

(** A reading of a version-1 device and one of a later device, both on
    2022-04-01 in Utrecht. *)
Definition legacy_reading : RawRecord :=
  mkRecord "bike-1" 1648807200 52 5 (Val 5000%Q) (Val "1").

Definition current_reading : RawRecord :=
  mkRecord "bike-2" 1648810800 52 5 (Val 500%Q) (Val "2").

Definition everywhere : Polygon := fun _ _ => true.

(** ** Vocabulary of the statements *)

(** The offsets of [n] successive requests, starting at [offset]. *)
Definition offsets (offset : Z) (n : nat) : list Z :=
  map (fun i => (offset + Z.of_nat i * limit)%Z) (seq 0 n).

(** The source answers the successive requests of a window, from [offset]
    on, with the pages [pages], none of them empty. *)
Definition serves (remote : Remote) (w : DateWindow) (offset : Z)
    (pages : list (list RawRecord)) : Prop :=
  forall (i : nat) (page : list RawRecord),
    pages !! i = Some page ->
    page <> [] /\ remote (query w (offset + Z.of_nat i * limit)%Z) = Records page.

(** The state after [n] requests that each brought a page. *)
Fixpoint paged (w : DateWindow) (offset : Z) (n : nat) (st : State) : State :=
  match n with
  | O => st
  | S n' =>
    paged w (offset + limit)%Z n'
          (print (Fetching offset) (send (query w offset) st))
  end.

(** The files on disk after any number of further executions of the
    script; nothing else writes to the output folder. *)
Inductive later_run (fs : gmap string (list RawRecord))
    : gmap string (list RawRecord) -> Prop :=
  | later_now : later_run fs fs
  | later_next fs' fuel remote areas date_ranges st :
      later_run fs fs' ->
      run fuel remote areas date_ranges fs' = Some st ->
      later_run fs (files st).

(** The first configured window, cut to three days, and the same days a
    year later. *)
Definition april_2022 : DateWindow := mkWindow "2022-04-01" "2022-04-03" 19083 19085.
Definition april_2023 : DateWindow := mkWindow "2023-04-01" "2023-04-03" 19448 19450.

Definition full_page : list RawRecord := repeat current_reading (Z.to_nat limit).
Definition short_page : list RawRecord := repeat current_reading (Z.to_nat 3000).

(** Two full pages, a page of 3000, then nothing. *)
Definition three_pages_source : Remote := fun q =>
  if (q_offset q =? 0)%Z then Records full_page
  else if (q_offset q =? 10000)%Z then Records full_page
  else if (q_offset q =? 20000)%Z then Records short_page
  else Records [].

(** One full page, then the connection fails. *)
Definition failing_second_page : Remote := fun q =>
  if (q_offset q =? 0)%Z then Records full_page else ConnectionError.

(** A source with no records at all. *)
Definition empty_source : Remote := fun _ => Records [].

Definition reading (ts : Z) (v : Q) : RawRecord :=
  mkRecord "bike-2" ts 52 5 (Val v) (Val "2").

(** Two readings on 2022-04-01 and one on 2022-04-03. *)
Definition three_readings : list RawRecord :=
  [reading 1648807200 500; reading 1648810800 1500; reading 1648980000 1000].

(** A reading on 2022-04-01 and one on 2022-03-31, the day before the
    window. *)
Definition one_reading_early : list RawRecord :=
  [reading 1648807200 500; reading 1648720800 1500].

(** A record of 2023-04-01 without the [pm2_5] key. *)
Definition keyless_reading : RawRecord :=
  mkRecord "bike-3" 1680343200 52 5 Absent (Val "2").

Definition highfive_area : Area := mkArea "highfive_area" (Geometry everywhere).
Definition second_area : Area := mkArea "second_area" (Geometry everywhere).

(** The three readings for the 2022 window, nothing else. *)
Definition source_2022 : Remote := fun q =>
  if bool_decide (q_start_date q = "2022-04-01") && (q_offset q =? 0)%Z
  then Records three_readings
  else Records [].

(** The output folder with a cache file for the 2023 window whose records
    lack the [pm2_5] key. *)
Definition keyless_cache : gmap string (list RawRecord) :=
  {[cache_file_path april_2023 := [keyless_reading]]}.

(** ** Sheet names (lines 60-65, 253-255) *)

Definition invalid_chars : list Ascii.ascii :=
  ["\"; "/"; "*"; "["; "]"; ":"; "?"; "'"; " "]%char.

(** [name.replace(char, "")] for a one-character [char]: every occurrence
    goes.  Names are read as ASCII. *)
Fixpoint replace_char (char : Ascii.ascii) (name : string) : string :=
  match name with
  | EmptyString => EmptyString
  | String a name' =>
    if Ascii.eqb a char
    then replace_char char name'
    else String a (replace_char char name')
  end.

(** The loop over [invalid_chars], then [name[:31]]. *)
Definition sanitize_sheet_name (name : string) : string :=
  String.substring 0 31
    (fold_left (fun name char => replace_char char name) invalid_chars name).

(** The sheet name of an area and a window (lines 253-255). *)
Definition sheet_name (location_name : string) (w : DateWindow) : string :=
  sanitize_sheet_name
    (location_name +:+ "_" +:+ start_date w +:+ "_" +:+ end_date w).

Definition is_invalid (a : Ascii.ascii) : bool := existsb (Ascii.eqb a) invalid_chars.

(** ** The summary sheet (lines 269-298) *)

(** What a cell of the sheet was given: the bold section label, a plain
    string, a date, or a number.  Whether the writer accepts a value is the
    writer's business; the sheet records the calls. *)
Inductive xl_cell : Type :=
  | Bold (s : string)
  | Text (s : string)
  | Datetime (day : Z)
  | Number (q : Q)
  | NumberNaN.

(** [worksheet.write(row, col, value)] *)
Definition write (row col : nat) (value : xl_cell)
    (worksheet : gmap (nat * nat) xl_cell) : gmap (nat * nat) xl_cell :=
  <[(row, col) := value]> worksheet.

(** Column 0 of a data row: a timestamp goes through [write_datetime], the
    string "Overall" through [write]. *)
Definition date_value (d : date_cell) : xl_cell :=
  match d with
  | Day day => Datetime day
  | Overall => Text "Overall"
  end.

Definition stat_value (v : stat) : xl_cell :=
  match v with
  | Num q => Number q
  | NaN => NumberNaN
  | missing => Text "missing"
  end.

(** [for col, value in enumerate(data_row)] *)
Definition write_data_row (row : nat) (data_row : StatsRow)
    (worksheet : gmap (nat * nat) xl_cell) : gmap (nat * nat) xl_cell :=
  write row 2 (stat_value (PM2_5_Median data_row))
    (write row 1 (stat_value (PM2_5_Average data_row))
       (write row 0 (date_value (Date data_row)) worksheet)).

(** [for row_idx, data_row in stats_df.iterrows()]; the index of
    [stats_df] is 0, 1, 2, ... because of [ignore_index=True]. *)
Fixpoint write_data_rows (start_row row_idx : nat) (stats_df : StatsTable)
    (worksheet : gmap (nat * nat) xl_cell) : gmap (nat * nat) xl_cell :=
  match stats_df with
  | [] => worksheet
  | data_row :: stats_df' =>
    write_data_rows start_row (S row_idx) stats_df'
      (write_data_row (start_row + 2 + row_idx) data_row worksheet)
  end.

Definition write_headers (start_row : nat)
    (worksheet : gmap (nat * nat) xl_cell) : gmap (nat * nat) xl_cell :=
  write (start_row + 1) 2 (Text "PM2.5_Median")
    (write (start_row + 1) 1 (Text "PM2.5_Average")
       (write (start_row + 1) 0 (Text "Date") worksheet)).

(** [for location_range, stats_df in all_stats_sections], with
    [start_row += len(stats_df) + 3] at the end of each round. *)
Fixpoint write_sections (start_row : nat) (sections : list (string * StatsTable))
    (worksheet : gmap (nat * nat) xl_cell) : gmap (nat * nat) xl_cell :=
  match sections with
  | [] => worksheet
  | (location_range, stats_df) :: sections' =>
    write_sections (start_row + length stats_df + 3) sections'
      (write_data_rows start_row 0 stats_df
         (write_headers start_row
            (write start_row 0 (Bold location_range) worksheet)))
  end.

(** The sheet "PM25_Stats" of a finished run. *)
Definition summary_sheet (st : State) : gmap (nat * nat) xl_cell :=
  write_sections 0 (all_stats_sections st) ∅.

(** The row at which the section after [sections] starts. *)
Definition rows_used (sections : list (string * StatsTable)) : nat :=
  list_sum (map (fun s => length s.2 + 3)%nat sections).

(** ** More vocabulary *)

(** The variables and outputs of the script, the files and the console
    aside. *)
Definition same_results (st1 st2 : State) : Prop :=
  daily_stats st1 = daily_stats st2 /\
  overall_stats st1 = overall_stats st2 /\
  all_stats_sections st1 = all_stats_sections st2 /\
  csv_files st1 = csv_files st2.

(** A daily table: dated rows whose cells are numbers or the marker. *)
Definition is_daily_table (t : StatsTable) : Prop :=
  Forall (fun row => (exists day, Date row = Day day) /\
                     PM2_5_Average row <> NaN /\ PM2_5_Median row <> NaN) t.

(** An overall table: one row dated "Overall" with two numbers. *)
Definition is_overall_table (t : StatsTable) : Prop :=
  exists a m,
    t = [ {| Date := Overall; PM2_5_Average := Num a; PM2_5_Median := Num m |} ].

Definition is_stats_table (t : StatsTable) : Prop :=
  exists daily overall,
    t = daily ++ overall /\ is_daily_table daily /\ is_overall_table overall.

(** A frame in which the pm2_5 column, when it exists, has no NaN. *)
Definition no_nan (df : DataFrame) : Prop :=
  has_pm2_5 df = true -> forall r, r ∈ rows df -> is_Some (value (pm2_5 r)).

(** A source that answers every request with a full page. *)
Definition endless_source : Remote := fun _ => Records full_page.

(** One full page, then a body that is not JSON. *)
Definition garbled_second_page : Remote := fun q =>
  if (q_offset q =? 0)%Z then Records full_page else InvalidJSON.

(** The two variables hold tables of their kind, and so does every table
    on the summary list. *)
Definition tables_ok (st : State) : Prop :=
  (forall daily, daily_stats st = Some daily -> is_daily_table daily) /\
  (forall overall, overall_stats st = Some overall -> is_overall_table overall) /\
  Forall (fun s => is_stats_table s.2) (all_stats_sections st).

(** Every label on the summary list and every extract belongs to a
    configured area and window. *)
Definition labels_ok (areas : list Area) (date_ranges : list DateWindow)
    (st : State) : Prop :=
  Forall (fun s => exists area w, area ∈ areas /\ w ∈ date_ranges /\
                     s.1 = section_label (location_name area) w)
         (all_stats_sections st) /\
  Forall (fun x => exists area w, area ∈ areas /\ w ∈ date_ranges /\
                     x.1 = csv_file_path (location_name area) w)
         (csv_files st).

(** An area whose file cannot be read, and one whose file holds no
    geometry. *)
Definition unreadable_area : Area := mkArea "unreadable_area" Unreadable.
Definition featureless_area : Area := mkArea "featureless_area" NoGeometry.

(** A body that decodes to an object whose [result] is null. *)
Definition null_result_source : Remote := fun _ => Malformed AttributeError.

(** A window of five days, and the output folder with a cache file for it
    whose only record lacks the [pm2_5] key. *)
Definition window_5_days : DateWindow :=
  mkWindow "2023-04-01" "2023-04-05" 19448 19452.

Definition keyless_cache_5_days : gmap string (list RawRecord) :=
  {[cache_file_path window_5_days := [keyless_reading]]}.

(** A window that starts on the last day of the 2022 window, and a cache
    file for it whose only record, of 2022-04-04, lacks the [pm2_5] key. *)
Definition overlapping_window : DateWindow :=
  mkWindow "2022-04-03" "2022-04-05" 19085 19087.

Definition keyless_reading_0404 : RawRecord :=
  mkRecord "bike-3" 1649066400 52 5 Absent (Val "2").

Definition keyless_cache_overlap : gmap string (list RawRecord) :=
  {[cache_file_path overlapping_window := [keyless_reading_0404]]}.

(** A reading of zero and one far above the range. *)
Definition invalid_readings : list RawRecord :=
  [reading 1648807200 0; reading 1648810800 20000].

(** What the summary block puts at column [col] of the header row and of a
    data row. *)
Definition header_cell (col : nat) : option xl_cell :=
  match col with
  | 0 => Some (Text "Date")
  | 1 => Some (Text "PM2.5_Average")
  | 2 => Some (Text "PM2.5_Median")
  | _ => None
  end%nat.

Definition data_cell (data_row : StatsRow) (col : nat) : option xl_cell :=
  match col with
  | 0 => Some (date_value (Date data_row))
  | 1 => Some (stat_value (PM2_5_Average data_row))
  | 2 => Some (stat_value (PM2_5_Median data_row))
  | _ => None
  end%nat.

(** The cell a section that starts at [start_row] shows at ([row], [col]):
    its label, its header, its table, and nothing else. *)
Definition section_cell (start_row : nat) (location_range : string)
    (stats_df : StatsTable) (row col : nat) : option xl_cell :=
  if (row <? start_row)%nat then None
  else
    match (row - start_row)%nat with
    | O => match col with O => Some (Bold location_range) | _ => None end
    | S O => header_cell col
    | S (S i) =>
      match stats_df !! i with
      | Some data_row => data_cell data_row col
      | None => None
      end
    end.

(** The table of the three readings. *)
Definition table_2022 : StatsTable :=
  [ {| Date := Day 19083; PM2_5_Average := Num 10; PM2_5_Median := Num 10 |};
    {| Date := Day 19084; PM2_5_Average := missing; PM2_5_Median := missing |};
    {| Date := Day 19085; PM2_5_Average := Num 10; PM2_5_Median := Num 10 |};
    {| Date := Overall; PM2_5_Average := Num 10; PM2_5_Median := Num 10 |} ].

(** * Properties *)

(** ** Paths in the output folder *)

Lemma list_of_append (s1 s2 : string) :
  String.list_ascii_of_string (s1 +:+ s2) =
  String.list_ascii_of_string s1 ++ String.list_ascii_of_string s2.
Proof. induction s1 as [|a s1 IH]; simpl; [|rewrite IH]; reflexivity. Qed.

(** The two kinds of path end differently. *)
Lemma csv_path_ne_cache_path (location_name : string) (w w' : DateWindow) :
  csv_file_path location_name w <> cache_file_path w'.
Proof.
  intros H.
  apply (f_equal (fun s => List.last (String.list_ascii_of_string s) "x"%char)) in H.
  unfold csv_file_path, cache_file_path in H.
  rewrite !list_of_append in H.
  change (String.list_ascii_of_string ".csv")
    with (String.list_ascii_of_string ".cs" ++ ["v"%char]) in H.
  change (String.list_ascii_of_string ".json")
    with (String.list_ascii_of_string ".jso" ++ ["n"%char]) in H.
  rewrite !app_assoc, !List.last_last in H. discriminate.
Qed.

(** ** Reading a result off by evaluation *)

Lemma returned (o : option State) (P : State -> Prop) :
  match o with Some st => P st | None => False end ->
  exists st, o = Some st /\ P st.
Proof. destruct o as [st|]; [eauto | contradiction]. Qed.

(** ** Normalization *)

Lemma Qlt_bool_iff (x y : Q) : Qlt_bool x y = true <-> (x < y)%Q.
Proof.
  unfold Qlt_bool. rewrite negb_true_iff. split.
  - intros H. apply Qnot_le_lt. intros Hle.
    apply Qle_bool_iff in Hle. congruence.
  - intros H. destruct (Qle_bool y x) eqn:E; [|reflexivity].
    apply Qle_bool_iff in E. exfalso. exact (Qlt_not_le _ _ H E).
Qed.

Lemma in_range_spec (r : RawRecord) :
  in_range r = true <->
  exists v, pm2_5 r = Val v /\ (0 < v)%Q /\ (v <= 10000)%Q.
Proof.
  unfold in_range. destruct (pm2_5 r) as [| |v]; simpl.
  - split; [discriminate | intros (v & H & _); discriminate].
  - split; [discriminate | intros (v & H & _); discriminate].
  - rewrite andb_true_iff, Qlt_bool_iff, Qle_bool_iff. split.
    + intros [H1 H2]. exists v. auto.
    + intros (v' & H & H1 & H2). injection H as ->. auto.
Qed.

Lemma rows_range_filter (df : DataFrame) :
  rows (range_filter df) =
  if has_pm2_5 df then filter (fun r => in_range r = true) (rows df) else rows df.
Proof.
  unfold range_filter, empty.
  destruct (rows df) as [|r rs] eqn:E, (has_pm2_5 df); simpl; try rewrite E; reflexivity.
Qed.

Lemma has_pm2_5_range_filter (df : DataFrame) :
  has_pm2_5 (range_filter df) = has_pm2_5 df.
Proof. unfold range_filter. destruct (_ && _); reflexivity. Qed.

Lemma has_version_major_range_filter (df : DataFrame) :
  has_version_major (range_filter df) = has_version_major df.
Proof. unfold range_filter. destruct (_ && _); reflexivity. Qed.

Lemma has_pm2_5_scale_correction (df : DataFrame) :
  has_pm2_5 (scale_correction df) = has_pm2_5 df.
Proof. unfold scale_correction. destruct (_ && _ && _); reflexivity. Qed.

Lemma has_pm2_5_normalize (all_records : list RawRecord) :
  has_pm2_5 (normalize all_records) = has_pm2_5 (mk_DataFrame all_records).
Proof.
  unfold normalize. now rewrite has_pm2_5_scale_correction, has_pm2_5_range_filter.
Qed.

(** A row the scale block changes shows that both guarded columns
    exist. *)
Lemma scale_row_id_or_keys (r : RawRecord) :
  scale_row r = r \/
  (has_key (version_major r) = true /\ has_key (pm2_5 r) = true).
Proof.
  unfold scale_row, is_version_1.
  destruct (version_major r) as [| |s]; simpl; auto.
  destruct (bool_decide (s = "1")); auto.
  destruct (pm2_5 r); simpl; auto.
Qed.

Lemma existsb_has_key {A : Type} (f : RawRecord -> cell A)
    (rs : list RawRecord) (r : RawRecord) :
  r ∈ rs -> has_key (f r) = true -> existsb (fun r => has_key (f r)) rs = true.
Proof.
  intros Hin Hk. apply existsb_exists. exists r. split; [|exact Hk].
  now apply list_elem_of_In.
Qed.

Lemma map_scale_row_id (rs : list RawRecord) :
  (forall r, r ∈ rs -> scale_row r = r) -> map scale_row rs = rs.
Proof.
  induction rs as [|r rs IH]; intros H; simpl; [reflexivity|].
  rewrite H by apply list_elem_of_here.
  rewrite IH; [reflexivity|]. intros r' Hr'. apply H. now apply list_elem_of_further.
Qed.

(** The scale block multiplies row by row whenever its guard lets it run,
    and when the guard stops it no row would have changed. *)
Lemma rows_scale_correction (df : DataFrame) :
  (forall r, r ∈ rows df -> has_key (version_major r) = true ->
             has_version_major df = true) ->
  (forall r, r ∈ rows df -> has_key (pm2_5 r) = true -> has_pm2_5 df = true) ->
  rows (scale_correction df) = map scale_row (rows df).
Proof.
  intros Hvm Hpm. unfold scale_correction.
  destruct (negb (empty df) && has_version_major df && has_pm2_5 df) eqn:G;
    [reflexivity|].
  symmetry. apply map_scale_row_id. intros r Hr.
  destruct (scale_row_id_or_keys r) as [H|[H1 H2]]; [exact H|].
  exfalso. rewrite (Hvm r Hr H1), (Hpm r Hr H2), andb_true_r, andb_true_r in G.
  unfold empty in G. destruct (rows df); [inversion Hr | discriminate].
Qed.

Lemma rows_range_filter_incl (df : DataFrame) (r : RawRecord) :
  r ∈ rows (range_filter df) -> r ∈ rows df.
Proof.
  rewrite rows_range_filter. destruct (has_pm2_5 df); [|auto].
  intros H. apply list_elem_of_filter in H. tauto.
Qed.

Lemma rows_normalize (all_records : list RawRecord) :
  rows (normalize all_records) =
  map scale_row (rows (range_filter (mk_DataFrame all_records))).
Proof.
  unfold normalize. apply rows_scale_correction.
  - intros r Hr Hk. rewrite has_version_major_range_filter. simpl.
    apply rows_range_filter_incl in Hr. simpl in Hr.
    exact (existsb_has_key version_major _ _ Hr Hk).
  - intros r Hr Hk. rewrite has_pm2_5_range_filter. simpl.
    apply rows_range_filter_incl in Hr. simpl in Hr.
    exact (existsb_has_key pm2_5 _ _ Hr Hk).
Qed.

Lemma is_version_1_spec (r : RawRecord) :
  is_version_1 r = true <-> version_major r = Val "1".
Proof.
  unfold is_version_1. destruct (version_major r) as [| |s]; simpl.
  - split; discriminate.
  - split; discriminate.
  - rewrite bool_decide_eq_true. split; [intros ->; reflexivity | congruence].
Qed.

Lemma is_version_1_scale_row (r : RawRecord) :
  is_version_1 (scale_row r) = is_version_1 r.
Proof.
  unfold scale_row. destruct (is_version_1 r) eqn:E; [|exact E].
  destruct (pm2_5 r); exact E.
Qed.

Lemma pm2_5_scale_row (r : RawRecord) (v : Q) :
  pm2_5 r = Val v -> pm2_5 (scale_row r) = Val (scaled r v).
Proof.
  intros H. unfold scale_row, scaled.
  destruct (is_version_1 r); rewrite H; reflexivity.
Qed.

Lemma scale_row_other_fields (r : RawRecord) :
  entity_id (scale_row r) = entity_id r /\
  recording_timestamp (scale_row r) = recording_timestamp r /\
  latitude (scale_row r) = latitude r /\
  longitude (scale_row r) = longitude r /\
  version_major (scale_row r) = version_major r /\
  value (pm2_5 (scale_row r)) = option_map (scaled r) (value (pm2_5 r)).
Proof.
  repeat split; try (unfold scale_row; destruct (is_version_1 r), (pm2_5 r); reflexivity).
  destruct (pm2_5 r) as [| |v] eqn:E.
  - unfold scale_row. rewrite E. destruct (is_version_1 r); rewrite E; reflexivity.
  - unfold scale_row. rewrite E. destruct (is_version_1 r); rewrite E; reflexivity.
  - rewrite (pm2_5_scale_row r v E). reflexivity.
Qed.

Lemma range_filter_survivor (all_records : list RawRecord) (r : RawRecord) (v : Q) :
  r ∈ rows (range_filter (mk_DataFrame all_records)) ->
  value (pm2_5 r) = Some v ->
  (0 < v)%Q /\ (v <= 10000)%Q.
Proof.
  intros Hr Hv. rewrite rows_range_filter in Hr.
  destruct (has_pm2_5 (mk_DataFrame all_records)) eqn:E.
  - apply list_elem_of_filter in Hr as [Hr _].
    apply in_range_spec in Hr as (v' & Hp & H1 & H2).
    rewrite Hp in Hv. injection Hv as <-. auto.
  - exfalso. simpl in Hr, E.
    assert (has_key (pm2_5 r) = true) as Hk by (destruct (pm2_5 r); [discriminate| |]; reflexivity).
    rewrite (existsb_has_key pm2_5 _ _ Hr Hk) in E. discriminate.
Qed.

Lemma range_filter_has_value (all_records : list RawRecord) (r : RawRecord) :
  has_pm2_5 (mk_DataFrame all_records) = true ->
  r ∈ rows (range_filter (mk_DataFrame all_records)) ->
  is_Some (value (pm2_5 r)).
Proof.
  intros E Hr. rewrite rows_range_filter, E in Hr.
  apply list_elem_of_filter in Hr as [Hr _].
  apply in_range_spec in Hr as (v & Hp & _). rewrite Hp. simpl. eauto.
Qed.

Lemma within_incl (df : DataFrame) (polygon : Polygon) (r : RawRecord) :
  r ∈ rows (within df polygon) -> r ∈ rows df.
Proof. simpl. intros H. apply list_elem_of_filter in H. tauto. Qed.

(** C6.  The scale block maps the rows that survived the range filter one
    to one, in order: a row that held [v] holds [v * 100] afterwards when
    its [version_major] is ["1"], and still holds [v] when it is anything
    else; no other column changes. *)
Theorem normalize_scale_correction (all_records : list RawRecord) (i : nat)
    (r : RawRecord) (v : Q) :
  rows (range_filter (mk_DataFrame all_records)) !! i = Some r ->
  pm2_5 r = Val v ->
  exists r',
    rows (normalize all_records) !! i = Some r' /\
    (version_major r = Val "1" -> pm2_5 r' = Val (v * 100)%Q) /\
    (version_major r <> Val "1" -> pm2_5 r' = Val v) /\
    entity_id r' = entity_id r /\
    recording_timestamp r' = recording_timestamp r /\
    latitude r' = latitude r /\
    longitude r' = longitude r /\
    version_major r' = version_major r /\
    length (rows (normalize all_records)) =
      length (rows (range_filter (mk_DataFrame all_records))).
Proof.
  intros Hi Hv. exists (scale_row r). rewrite rows_normalize.
  split; [rewrite list_lookup_fmap, Hi; reflexivity|].
  destruct (scale_row_other_fields r) as (He & Ht & Hla & Hlo & Hvm & _).
  pose proof (pm2_5_scale_row r v Hv) as Hs. unfold scaled in Hs.
  repeat split; auto.
  - intros H1. apply is_version_1_spec in H1. rewrite H1 in Hs. exact Hs.
  - intros H1. destruct (is_version_1 r) eqn:E; [|exact Hs].
    apply is_version_1_spec in E. contradiction.
  - apply length_map.
Qed.

(** C1, as amended.  After the range filter every pm2_5 value lies in
    (0, 10000].  The scale block runs after the filter, so a normalized row
    whose [version_major] is ["1"] holds 100 times such a value, which can
    be as large as 1000000; every other normalized row holds a value in
    (0, 10000].  The spatial filter only selects among the normalized
    rows. *)
Theorem normalize_pm2_5_bounds (all_records : list RawRecord)
    (polygon : Polygon) (r : RawRecord) :
  r ∈ rows (normalize all_records) \/
  r ∈ rows (within (normalize all_records) polygon) ->
  (has_pm2_5 (mk_DataFrame all_records) = true -> is_Some (value (pm2_5 r))) /\
  forall v, value (pm2_5 r) = Some v ->
    (0 < v)%Q /\ (v <= 1000000)%Q /\
    (version_major r <> Val "1" -> (v <= 10000)%Q) /\
    (version_major r = Val "1" ->
       exists v0, v = (v0 * 100)%Q /\ (0 < v0)%Q /\ (v0 <= 10000)%Q).
Proof.
  intros Hr.
  assert (r ∈ rows (normalize all_records)) as Hn
    by (destruct Hr as [H|H]; [exact H | exact (within_incl _ _ _ H)]).
  clear Hr. rewrite rows_normalize in Hn.
  apply list_elem_of_fmap in Hn as (r0 & -> & Hr0).
  destruct (scale_row_other_fields r0) as (_ & _ & _ & _ & Hvm & Hval).
  split.
  - intros E. rewrite Hval.
    destruct (range_filter_has_value _ _ E Hr0) as [v0 ->]. simpl. eauto.
  - intros v Hv. rewrite Hval in Hv.
    destruct (value (pm2_5 r0)) as [v0|] eqn:E0; [|discriminate].
    simpl in Hv. injection Hv as <-.
    destruct (range_filter_survivor _ _ _ Hr0 E0) as [H1 H2].
    rewrite Hvm. unfold scaled. destruct (is_version_1 r0) eqn:E1.
    + repeat split; try lra.
      * intros Hne. apply is_version_1_spec in E1. contradiction.
      * intros _. exists v0. auto.
    + repeat split; try lra.
      intros Hv1. apply is_version_1_spec in Hv1. congruence.
Qed.

Lemma normalize_scale_correction_witness :
  exists r',
    rows (normalize [legacy_reading; current_reading]) !! 0%nat = Some r' /\
    pm2_5 r' = Val (5000 * 100)%Q.
Proof.
  destruct (normalize_scale_correction [legacy_reading; current_reading] 0
              legacy_reading 5000%Q) as (r' & H1 & H2 & _);
    [reflexivity | reflexivity |].
  exists r'. split; [exact H1 | apply H2; reflexivity].
Defined.

Lemma normalize_pm2_5_bounds_witness :
  (0 < 5000 * 100)%Q /\ (5000 * 100 <= 1000000)%Q.
Proof.
  destruct (normalize_pm2_5_bounds [legacy_reading; current_reading]
              everywhere (scale_row legacy_reading)) as [_ H].
  - left. vm_compute. apply list_elem_of_here.
  - destruct (H (5000 * 100)%Q eq_refl) as (H1 & H2 & _). split; assumption.
Defined.

(** C1, as stated, fails: a version-1 reading of 5000 passes the range
    filter and leaves normalization as 500000. *)
Lemma normalize_pm2_5_le_10000_fails :
  ~ (forall (all_records : list RawRecord) (r : RawRecord) (v : Q),
       r ∈ rows (normalize all_records) -> pm2_5 r = Val v ->
       (0 < v)%Q /\ (v <= 10000)%Q).
Proof.
  intros H.
  destruct (H [legacy_reading] (scale_row legacy_reading) (5000 * 100)%Q) as [_ H2].
  - vm_compute. apply list_elem_of_here.
  - reflexivity.
  - vm_compute in H2. apply H2. reflexivity.
Qed.

(** ** Pagination *)

Lemma serves_tail (remote : Remote) (w : DateWindow) (offset : Z)
    (page : list RawRecord) (pages : list (list RawRecord)) :
  serves remote w offset (page :: pages) ->
  page <> [] /\ remote (query w offset) = Records page /\
  serves remote w (offset + limit) pages.
Proof.
  intros H. destruct (H 0%nat page eq_refl) as [Hne Hr].
  replace (offset + Z.of_nat 0 * limit)%Z with offset in Hr by lia.
  split; [exact Hne|]. split; [exact Hr|].
  intros i p Hi. destruct (H (S i) p Hi) as [Hp Hq]. split; [exact Hp|].
  replace (offset + limit + Z.of_nat i * limit)%Z
    with (offset + Z.of_nat (S i) * limit)%Z by lia.
  exact Hq.
Qed.

(** As long as pages keep coming the loop keeps asking: each non-empty
    page, full or short, costs one request and is appended. *)
Lemma fetch_loop_pages (remote : Remote) (w : DateWindow)
    (pages : list (list RawRecord)) :
  forall (fuel : nat) (offset : Z) (all_records : list RawRecord) (st : State),
    serves remote w offset pages ->
    fetch_loop (length pages + fuel) remote w offset all_records st =
    fetch_loop fuel remote w (offset + Z.of_nat (length pages) * limit)%Z
               (all_records ++ concat pages) (paged w offset (length pages) st).
Proof.
  induction pages as [|page pages IH]; intros fuel offset all_records st Hs.
  - simpl. rewrite app_nil_r. f_equal. lia.
  - apply serves_tail in Hs as (Hne & Hr & Hs).
    cbn [length Nat.add fetch_loop]. rewrite Hr.
    destruct page as [|r page]; [contradiction|].
    rewrite (IH fuel _ _ _ Hs). cbn [concat paged]. rewrite <- app_assoc.
    f_equal. lia.
Qed.

(** With no more fuel than pages the loop is still running. *)
Lemma fetch_loop_running (remote : Remote) (w : DateWindow)
    (pages : list (list RawRecord)) :
  forall (fuel : nat) (offset : Z) (all_records : list RawRecord) (st : State),
    serves remote w offset pages ->
    (fuel <= length pages)%nat ->
    fetch_loop fuel remote w offset all_records st = None.
Proof.
  induction pages as [|page pages IH]; intros fuel offset all_records st Hs Hf.
  - simpl in Hf. assert (fuel = 0%nat) as -> by lia. reflexivity.
  - destruct fuel as [|fuel]; [reflexivity|].
    apply serves_tail in Hs as (Hne & Hr & Hs).
    cbn [fetch_loop]. rewrite Hr. destruct page as [|r page]; [contradiction|].
    apply IH; [exact Hs | simpl in Hf; lia].
Qed.

Lemma fuel_split (n fuel : nat) :
  (n < fuel)%nat -> exists k, fuel = (n + S k)%nat.
Proof. intros H. exists (fuel - n - 1)%nat. lia. Qed.

Lemma files_paged (w : DateWindow) (n : nat) :
  forall (offset : Z) (st : State), files (paged w offset n st) = files st.
Proof. induction n as [|n IH]; intros offset st; simpl; [|rewrite IH]; reflexivity. Qed.

Lemma requests_paged (w : DateWindow) (n : nat) :
  forall (offset : Z) (st : State),
    requests (paged w offset n st) =
    requests st ++ map (query w) (offsets offset n).
Proof.
  induction n as [|n IH]; intros offset st.
  - simpl. now rewrite app_nil_r.
  - cbn [paged]. rewrite IH. simpl requests. rewrite <- app_assoc. f_equal.
    unfold offsets. cbn [seq map app]. f_equal; [f_equal; lia|].
    rewrite <- seq_shift, !map_map. apply map_ext. intros i. f_equal. lia.
Qed.

Lemma offsets_snoc (offset : Z) (n : nat) :
  offsets offset (S n) = offsets offset n ++ [(offset + Z.of_nat n * limit)%Z].
Proof. unfold offsets. rewrite seq_S, map_app. reflexivity. Qed.

(** The loop after the pages: the next answer decides. *)
Lemma fetch_loop_stops (remote : Remote) (w : DateWindow)
    (pages : list (list RawRecord)) (fuel : nat) (st : State) (m : message) :
  serves remote w 0 pages ->
  (length pages < fuel)%nat ->
  (remote (query w (Z.of_nat (length pages) * limit)) = Records [] /\
     m = Fetching (Z.of_nat (length pages) * limit)) \/
  (remote (query w (Z.of_nat (length pages) * limit)) = HTTPError /\
     m = HTTPErrorOccurred) \/
  (remote (query w (Z.of_nat (length pages) * limit)) = ConnectionError /\
     m = FetchingError) ->
  fetch_loop fuel remote w 0 [] st =
  Some (inr (concat pages),
        print m (send (query w (Z.of_nat (length pages) * limit))
                      (paged w 0 (length pages) st))).
Proof.
  intros Hs Hf Hlast. destruct (fuel_split _ _ Hf) as [k ->].
  rewrite (fetch_loop_pages remote w pages (S k) 0 [] st Hs).
  cbn [fetch_loop app]. rewrite Z.add_0_l.
  destruct Hlast as [[-> ->]|[[-> ->]|[-> ->]]]; reflexivity.
Qed.

(** ** What the later blocks leave alone *)

(** Once the records of a window are in hand, the only file an area
    writes is its extract, and no request is sent. *)
Lemma location_body_io (w : DateWindow) (gdf : DataFrame) (area : Area) (st : State) :
  (forall path,
     files (location_body w gdf area st).2 !! path = files st !! path \/
     path = csv_file_path (location_name area) w) /\
  requests (location_body w gdf area st).2 = requests st.
Proof.
  unfold location_body, daily_block, overall_block, save_block.
  repeat case_match; simplify_eq; simpl; (split; [intros path|reflexivity]);
    try (left; reflexivity);
    (destruct (decide (csv_file_path (location_name area) w = path)) as [<-|Hne];
     [right; reflexivity | left; apply lookup_insert_ne; exact Hne]).
Qed.

Lemma locations_loop_io (w : DateWindow) (gdf : DataFrame) (areas : list Area) :
  forall st : State,
    (forall path,
       files (locations_loop w gdf areas st).2 !! path = files st !! path \/
       exists area, area ∈ areas /\ path = csv_file_path (location_name area) w) /\
    requests (locations_loop w gdf areas st).2 = requests st.
Proof.
  induction areas as [|area areas IH]; intros st; [simpl; auto|].
  cbn [locations_loop].
  destruct (location_body_io w gdf area st) as [Hf Hr].
  destruct (location_body w gdf area st) as [[e|] st']; simpl in *.
  - split; [|exact Hr]. intros path. destruct (Hf path) as [H| ->]; [auto|].
    right. exists area. split; [apply list_elem_of_here | reflexivity].
  - destruct (IH st') as [Hf' Hr']. split; [|congruence].
    intros path. destruct (Hf' path) as [H|(a & Ha & ->)].
    + destruct (Hf path) as [H'| ->]; [left; congruence|].
      right. exists area. split; [apply list_elem_of_here | reflexivity].
    + right. exists a. split; [now apply list_elem_of_further | reflexivity].
Qed.

Lemma process_records_io (areas : list Area) (w : DateWindow)
    (all_records : list RawRecord) (st : State) :
  (forall path,
     files (except_date_range w (process_records areas w all_records st)) !! path
       = files st !! path \/
     exists area, area ∈ areas /\ path = csv_file_path (location_name area) w) /\
  requests (except_date_range w (process_records areas w all_records st)) = requests st.
Proof.
  unfold process_records. destruct (empty (normalize all_records)); [simpl; auto|].
  destruct (locations_loop_io w (normalize all_records) areas st) as [Hf Hr].
  destruct (locations_loop w (normalize all_records) areas st) as [[e|] st'];
    simpl in *; auto.
Qed.

(** In particular no cache file changes while a window's records are
    processed. *)
Lemma process_records_cache (areas : list Area) (w w0 : DateWindow)
    (all_records : list RawRecord) (st : State) :
  files (except_date_range w (process_records areas w all_records st))
    !! cache_file_path w0 = files st !! cache_file_path w0.
Proof.
  destruct (process_records_io areas w all_records st) as [Hf _].
  destruct (Hf (cache_file_path w0)) as [H|(area & _ & H)]; [exact H|].
  symmetry in H. exfalso. exact (csv_path_ne_cache_path _ _ _ H).
Qed.

(** The pagination loop never writes a file. *)
Lemma fetch_loop_files (remote : Remote) (w : DateWindow) (fuel : nat) :
  forall (offset : Z) (all_records : list RawRecord) (st : State) res st',
    fetch_loop fuel remote w offset all_records st = Some (res, st') ->
    files st' = files st.
Proof.
  induction fuel as [|fuel IH]; intros offset all_records st res st' H;
    [discriminate|].
  cbn [fetch_loop] in H.
  destruct (remote (query w offset)) as [| | |e|records];
    try (injection H as _ <-; reflexivity).
  destruct records as [|r records]; [injection H as _ <-; reflexivity|].
  apply IH in H. exact H.
Qed.

(** ** The cache *)

(** Cache hit: the file is read, and the state changes by one console
    line. *)
Lemma load_or_fetch_hit (fuel : nat) (remote : Remote) (w : DateWindow)
    (st : State) (content : list RawRecord) :
  files st !! cache_file_path w = Some content ->
  load_or_fetch fuel remote w st =
  Some (inr content, print (LoadingCache (cache_file_path w)) st).
Proof. intros H. unfold load_or_fetch. rewrite H. reflexivity. Qed.

(** One window leaves every cache file that already exists as it is. *)
Lemma date_range_body_keeps (fuel : nat) (remote : Remote) (areas : list Area)
    (w w0 : DateWindow) (st st' : State) (content : list RawRecord) :
  files st !! cache_file_path w0 = Some content ->
  date_range_body fuel remote areas w st = Some st' ->
  files st' !! cache_file_path w0 = Some content.
Proof.
  intros Hp H. unfold date_range_body, load_or_fetch in H.
  destruct (files st !! cache_file_path w) as [cached|] eqn:Hc.
  - injection H as <-. rewrite process_records_cache. exact Hp.
  - destruct (fetch_loop fuel remote w 0 [] st) as [[[e|recs] st1]|] eqn:Hf;
      [| |discriminate]; injection H as <-.
    + simpl. rewrite (fetch_loop_files _ _ _ _ _ _ _ _ Hf). exact Hp.
    + rewrite process_records_cache.
      simpl. rewrite (fetch_loop_files _ _ _ _ _ _ _ _ Hf).
      rewrite lookup_insert_ne; [exact Hp|]. congruence.
Qed.

Lemma date_ranges_loop_keeps (fuel : nat) (remote : Remote) (areas : list Area)
    (date_ranges : list DateWindow) (w0 : DateWindow) (content : list RawRecord) :
  forall st st' : State,
    files st !! cache_file_path w0 = Some content ->
    date_ranges_loop fuel remote areas date_ranges st = Some st' ->
    files st' !! cache_file_path w0 = Some content.
Proof.
  induction date_ranges as [|w ws IH]; intros st st' Hp H.
  - injection H as <-. exact Hp.
  - cbn [date_ranges_loop] in H.
    destruct (date_range_body fuel remote areas w st) as [st1|] eqn:E;
      [|discriminate].
    eapply IH; [|exact H]. eapply date_range_body_keeps; eassumption.
Qed.

Lemma later_run_keeps (fs fs' : gmap string (list RawRecord)) (w0 : DateWindow)
    (content : list RawRecord) :
  later_run fs fs' ->
  fs !! cache_file_path w0 = Some content ->
  fs' !! cache_file_path w0 = Some content.
Proof.
  induction 1 as [|fs' fuel remote areas date_ranges st _ IH Hrun]; intros Hp;
    [exact Hp|].
  unfold run in Hrun. eapply date_ranges_loop_keeps; [|exact Hrun].
  simpl. auto.
Qed.

(** ** Claims about pagination and the cache *)

(** C7, as amended.  When no request fails, the loop goes on after every
    non-empty page, full or short, and stops at the first empty page: with
    no more requests than pages it is still running, and one request more
    returns the pages joined in order, as many records as the pages hold
    together (two pages of 10000 and one of 3000 give 23000). *)
Theorem fetch_loop_until_empty_page (remote : Remote) (w : DateWindow)
    (pages : list (list RawRecord)) (fuel : nat) (st : State) :
  serves remote w 0 pages ->
  remote (query w (Z.of_nat (length pages) * limit)) = Records [] ->
  ((fuel <= length pages)%nat -> fetch_loop fuel remote w 0 [] st = None) /\
  ((length pages < fuel)%nat ->
     exists st',
       fetch_loop fuel remote w 0 [] st = Some (inr (concat pages), st') /\
       requests st' = requests st ++ map (query w) (offsets 0 (S (length pages)))) /\
  length (concat pages) = list_sum (map (@length RawRecord) pages).
Proof.
  intros Hs Hlast. split; [|split].
  - intros Hf. exact (fetch_loop_running remote w pages fuel 0 [] st Hs Hf).
  - intros Hf. eexists. split.
    + apply (fetch_loop_stops remote w pages fuel st
               (Fetching (Z.of_nat (length pages) * limit)) Hs Hf).
      left. split; [exact Hlast | reflexivity].
    + unfold print, send. cbn [requests].
      rewrite requests_paged, offsets_snoc, map_app, <- app_assoc.
      reflexivity.
  - apply length_concat.
Qed.

Lemma three_pages_served :
  serves three_pages_source april_2022 0 [full_page; full_page; short_page].
Proof.
  intros [|[|[|i]]] page H; simpl in H; try discriminate;
    injection H as <-; (split; [discriminate | reflexivity]).
Qed.

Lemma fetch_loop_until_empty_page_witness :
  (exists st',
     fetch_loop 4 three_pages_source april_2022 0 [] (initial ∅) =
     Some (inr (concat [full_page; full_page; short_page]), st')) /\
  Z.of_nat (length (concat [full_page; full_page; short_page])) = 23000%Z.
Proof.
  destruct (fetch_loop_until_empty_page three_pages_source april_2022
              [full_page; full_page; short_page] 4 (initial ∅)
              three_pages_served eq_refl) as (_ & H & Hlen).
  split.
  - destruct H as (st' & H & _); [simpl; lia|]. exists st'. exact H.
  - rewrite Hlen. vm_compute. reflexivity.
Defined.

(** C7, as stated, fails twice: the scripted source yields 23000 records,
    not 20003; and a failed request ends the loop although no page was
    empty. *)
Lemma pagination_yields_23000_not_20003 :
  (exists st',
     fetch_loop 4 three_pages_source april_2022 0 [] (initial ∅) =
     Some (inr (concat [full_page; full_page; short_page]), st') /\
     Z.of_nat (length (concat [full_page; full_page; short_page])) = 23000%Z /\
     Z.of_nat (length (concat [full_page; full_page; short_page])) <> 20003%Z) /\
  (exists st',
     fetch_loop 2 failing_second_page april_2022 0 [] (initial ∅) =
     Some (inr full_page, st') /\
     forall q, failing_second_page q <> Records []).
Proof.
  split.
  - eexists. split; [|split].
    + apply (fetch_loop_stops three_pages_source april_2022
               [full_page; full_page; short_page] 4 (initial ∅)
               (Fetching 30000) three_pages_served); [simpl; lia|].
      left. split; reflexivity.
    + vm_compute. reflexivity.
    + vm_compute. discriminate.
  - eexists. split.
    + reflexivity.
    + intros q. unfold failing_second_page.
      destruct (q_offset q =? 0)%Z; discriminate.
Qed.

Lemma load_or_fetch_error (fuel : nat) (remote : Remote) (w : DateWindow)
    (pages : list (list RawRecord)) (st : State) :
  files st !! cache_file_path w = None ->
  serves remote w 0 pages ->
  remote (query w (Z.of_nat (length pages) * limit)) = HTTPError \/
  remote (query w (Z.of_nat (length pages) * limit)) = ConnectionError ->
  (length pages < fuel)%nat ->
  exists st1,
    load_or_fetch fuel remote w st = Some (inr (concat pages), st1) /\
    requests st1 = requests st ++ map (query w) (offsets 0 (S (length pages))) /\
    files st1 = <[cache_file_path w := concat pages]> (files st).
Proof.
  intros Hmiss Hs Herr Hf.
  assert (exists m, fetch_loop fuel remote w 0 [] st =
            Some (inr (concat pages),
                  print m (send (query w (Z.of_nat (length pages) * limit))
                                (paged w 0 (length pages) st)))) as [m Hloop].
  { destruct Herr as [He|He].
    - exists HTTPErrorOccurred. apply fetch_loop_stops; auto.
    - exists FetchingError. apply fetch_loop_stops; auto. }
  unfold load_or_fetch. rewrite Hmiss, Hloop. eexists. split; [reflexivity|].
  unfold print, send, json_dump. cbn [requests files]. split.
  - rewrite requests_paged, offsets_snoc, map_app, <- app_assoc. reflexivity.
  - rewrite files_paged. reflexivity.
Qed.

(** C2.  When the request for page N fails with an HTTP or transport error
    after N-1 non-empty pages, the loop ends there: the window's raw record
    set is those pages joined, exactly N requests were sent, each offset
    once, the window goes on with that set, and the loop over the windows
    continues with the next one. *)
Theorem fetch_error_keeps_partial_set (fuel : nat) (remote : Remote)
    (areas : list Area) (w : DateWindow) (pages : list (list RawRecord))
    (st : State) :
  files st !! cache_file_path w = None ->
  serves remote w 0 pages ->
  remote (query w (Z.of_nat (length pages) * limit)) = HTTPError \/
  remote (query w (Z.of_nat (length pages) * limit)) = ConnectionError ->
  (length pages < fuel)%nat ->
  exists st1,
    load_or_fetch fuel remote w st = Some (inr (concat pages), st1) /\
    requests st1 = requests st ++ map (query w) (offsets 0 (S (length pages))) /\
    NoDup (offsets 0 (S (length pages))) /\
    date_range_body fuel remote areas w st =
      Some (except_date_range w (process_records areas w (concat pages) st1)) /\
    forall date_ranges,
      date_ranges_loop fuel remote areas (w :: date_ranges) st =
      date_ranges_loop fuel remote areas date_ranges
        (except_date_range w (process_records areas w (concat pages) st1)).
Proof.
  intros Hmiss Hs Herr Hf.
  destruct (load_or_fetch_error fuel remote w pages st Hmiss Hs Herr Hf)
    as (st1 & Hload & Hreq & _).
  exists st1. split; [exact Hload|]. split; [exact Hreq|]. split.
  - unfold offsets. apply NoDup_fmap_2; [|apply NoDup_seq].
    intros i j Hij. unfold limit in Hij. lia.
  - assert (date_range_body fuel remote areas w st =
            Some (except_date_range w (process_records areas w (concat pages) st1)))
      as Hbody by (unfold date_range_body; rewrite Hload; reflexivity).
    split; [exact Hbody|]. intros date_ranges.
    cbn [date_ranges_loop]. rewrite Hbody. reflexivity.
Qed.

Lemma failing_second_page_served :
  serves failing_second_page april_2022 0 [full_page].
Proof.
  intros [|i] page H; simpl in H; try discriminate.
  injection H as <-. split; [discriminate | reflexivity].
Qed.

Lemma fetch_error_keeps_partial_set_witness :
  exists st1,
    load_or_fetch 2 failing_second_page april_2022 (initial ∅) =
      Some (inr (concat [full_page]), st1) /\
    Z.of_nat (length (concat [full_page])) = 10000%Z /\
    length (requests st1) = 2%nat.
Proof.
  destruct (fetch_error_keeps_partial_set 2 failing_second_page [] april_2022
              [full_page] (initial ∅)) as (st1 & H1 & H2 & _).
  - reflexivity.
  - exact failing_second_page_served.
  - right. reflexivity.
  - simpl. lia.
  - exists st1. split; [exact H1|]. split; [vm_compute; reflexivity|].
    rewrite H2. reflexivity.
Defined.

(** C3.  A window whose cache file exists reads its records from the file
    and sends no request, whatever the source would answer.  A window whose
    cache file does not exist runs the fetch loop and writes what the loop
    returned, be it the empty list, to the file before the records are
    normalized; the file still holds it when the window is done. *)
Theorem cache_hit_or_fetch_and_persist (fuel : nat) (remote : Remote)
    (areas : list Area) (w : DateWindow) (st : State) :
  (forall content,
     files st !! cache_file_path w = Some content ->
     exists st1,
       load_or_fetch fuel remote w st = Some (inr content, st1) /\
       requests st1 = requests st /\
       files st1 = files st /\
       date_range_body fuel remote areas w st =
         Some (except_date_range w (process_records areas w content st1)) /\
       requests (except_date_range w (process_records areas w content st1)) =
         requests st) /\
  (forall all_records st0,
     files st !! cache_file_path w = None ->
     fetch_loop fuel remote w 0 [] st = Some (inr all_records, st0) ->
     exists st1 st2,
       load_or_fetch fuel remote w st = Some (inr all_records, st1) /\
       files st1 = <[cache_file_path w := all_records]> (files st) /\
       date_range_body fuel remote areas w st = Some st2 /\
       st2 = except_date_range w (process_records areas w all_records st1) /\
       files st2 !! cache_file_path w = Some all_records).
Proof.
  split.
  - intros content Hhit. eexists. split; [exact (load_or_fetch_hit _ _ _ _ _ Hhit)|].
    split; [reflexivity|]. split; [reflexivity|]. split.
    + unfold date_range_body. rewrite (load_or_fetch_hit _ _ _ _ _ Hhit). reflexivity.
    + destruct (process_records_io areas w content
                  (print (LoadingCache (cache_file_path w)) st)) as [_ ->].
      reflexivity.
  - intros all_records st0 Hmiss Hloop.
    assert (load_or_fetch fuel remote w st =
            Some (inr all_records,
                  print (DataCached (cache_file_path w))
                        (json_dump (cache_file_path w) all_records st0))) as Hload
      by (unfold load_or_fetch; rewrite Hmiss, Hloop; reflexivity).
    eexists. eexists. split; [exact Hload|].
    split; [simpl; now rewrite (fetch_loop_files _ _ _ _ _ _ _ _ Hloop)|].
    split; [unfold date_range_body; rewrite Hload; reflexivity|].
    split; [reflexivity|].
    rewrite process_records_cache. simpl. apply lookup_insert_eq.
Qed.

Lemma cache_hit_or_fetch_and_persist_witness :
  (exists st1,
     load_or_fetch 0 three_pages_source april_2022
       (initial {[cache_file_path april_2022 := [current_reading]]}) =
       Some (inr [current_reading], st1) /\
     requests st1 = []) /\
  (exists st1,
     load_or_fetch 1 empty_source april_2022 (initial ∅) = Some (inr [], st1) /\
     files st1 = <[cache_file_path april_2022 := []]> ∅).
Proof.
  split.
  - destruct (cache_hit_or_fetch_and_persist 0 three_pages_source [] april_2022
                (initial {[cache_file_path april_2022 := [current_reading]]}))
      as [Hhit _].
    destruct (Hhit [current_reading]) as (st1 & H1 & H2 & _).
    + apply lookup_singleton_eq.
    + exists st1. split; [exact H1 | exact H2].
  - destruct (cache_hit_or_fetch_and_persist 1 empty_source [] april_2022
                (initial ∅)) as [_ Hmiss].
    destruct (Hmiss [] _ (lookup_empty _) eq_refl) as (st1 & st2 & H1 & H2 & _).
    exists st1. split; [exact H1 | exact H2].
Defined.

(** C9.  When an HTTP or transport error cuts a window's pagination short,
    the records collected so far are still written to the window's cache
    file.  The rest of the run and every later run leave that file as it
    is, and whenever a later run reaches the window it loads the cut-short
    set from the file and sends no request. *)
Theorem truncated_fetch_is_cached_for_good (fuel : nat) (remote : Remote)
    (areas : list Area) (w : DateWindow) (pages : list (list RawRecord))
    (st : State) :
  files st !! cache_file_path w = None ->
  serves remote w 0 pages ->
  remote (query w (Z.of_nat (length pages) * limit)) = HTTPError \/
  remote (query w (Z.of_nat (length pages) * limit)) = ConnectionError ->
  (length pages < fuel)%nat ->
  exists st1,
    date_range_body fuel remote areas w st = Some st1 /\
    files st1 !! cache_file_path w = Some (concat pages) /\
    forall date_ranges st_end,
      date_ranges_loop fuel remote areas date_ranges st1 = Some st_end ->
      forall fs, later_run (files st_end) fs ->
      forall fuel' remote' areas' before st_mid,
        date_ranges_loop fuel' remote' areas' before (initial fs) = Some st_mid ->
        load_or_fetch fuel' remote' w st_mid =
          Some (inr (concat pages), print (LoadingCache (cache_file_path w)) st_mid) /\
        requests (print (LoadingCache (cache_file_path w)) st_mid) = requests st_mid /\
        date_range_body fuel' remote' areas' w st_mid =
          Some (except_date_range w
                  (process_records areas' w (concat pages)
                     (print (LoadingCache (cache_file_path w)) st_mid))) /\
        requests (except_date_range w
                    (process_records areas' w (concat pages)
                       (print (LoadingCache (cache_file_path w)) st_mid)))
          = requests st_mid.
Proof.
  intros Hmiss Hs Herr Hf.
  destruct (load_or_fetch_error fuel remote w pages st Hmiss Hs Herr Hf)
    as (st1 & Hload & _ & Hfiles).
  exists (except_date_range w (process_records areas w (concat pages) st1)).
  assert (files (except_date_range w (process_records areas w (concat pages) st1))
            !! cache_file_path w = Some (concat pages)) as Hcached.
  { rewrite process_records_cache, Hfiles. apply lookup_insert_eq. }
  split; [unfold date_range_body; rewrite Hload; reflexivity|].
  split; [exact Hcached|].
  intros date_ranges st_end Hrest fs Hlater fuel' remote' areas' before st_mid Hbefore.
  assert (files st_mid !! cache_file_path w = Some (concat pages)) as Hmid.
  { eapply date_ranges_loop_keeps; [|exact Hbefore]. simpl.
    eapply later_run_keeps; [exact Hlater|].
    eapply date_ranges_loop_keeps; [exact Hcached | exact Hrest]. }
  pose proof (load_or_fetch_hit fuel' remote' w st_mid _ Hmid) as Hhit.
  split; [exact Hhit|]. split; [reflexivity|].
  split; [unfold date_range_body; rewrite Hhit; reflexivity|].
  destruct (process_records_io areas' w (concat pages)
              (print (LoadingCache (cache_file_path w)) st_mid)) as [_ ->].
  reflexivity.
Qed.

Lemma truncated_fetch_is_cached_for_good_witness :
  exists st1,
    date_range_body 2 failing_second_page [] april_2022 (initial ∅) = Some st1 /\
    files st1 !! cache_file_path april_2022 = Some (concat [full_page]).
Proof.
  destruct (truncated_fetch_is_cached_for_good 2 failing_second_page []
              april_2022 [full_page] (initial ∅)) as (st1 & H1 & H2 & _).
  - reflexivity.
  - exact failing_second_page_served.
  - right. reflexivity.
  - simpl. lia.
  - exists st1. split; [exact H1 | exact H2].
Defined.

(** ** Aggregation *)

Lemma agg_day_no_records (rs : list RawRecord) (day : Z) :
  on_day day rs = [] -> agg_day rs day = (day, None, None).
Proof. intros H. unfold agg_day. rewrite H. reflexivity. Qed.

Lemma find_agg_day (rs : list RawRecord) (day : Z) (days : list Z) :
  find (fun row : DailyRow => bool_decide (row.1.1 = day)) (map (agg_day rs) days) =
  if decide (day ∈ days) then Some (agg_day rs day) else None.
Proof.
  induction days as [|d days IH]; simpl.
  - destruct (decide (day ∈ [])) as [H|_]; [inversion H | reflexivity].
  - destruct (decide (d = day)) as [->|Hne].
    + rewrite bool_decide_eq_true_2 by reflexivity.
      rewrite decide_True by apply list_elem_of_here. reflexivity.
    + rewrite bool_decide_eq_false_2 by exact Hne. rewrite IH.
      destruct (decide (day ∈ days)) as [Hin|Hnin].
      * rewrite decide_True by (now apply list_elem_of_further). reflexivity.
      * rewrite decide_False; [reflexivity|].
        intros H. apply elem_of_cons in H as [->|H]; contradiction.
Qed.

Lemma fold_min_max_bounds (d : Z) (ds : list Z) (x : Z) :
  x ∈ d :: ds ->
  (fold_right Z.min d ds <= x <= fold_right Z.max d ds)%Z.
Proof.
  induction ds as [|d' ds IH]; intros H.
  - apply list_elem_of_singleton in H as ->. simpl. lia.
  - simpl. apply elem_of_cons in H as [->|H].
    + assert (d ∈ d :: ds) as Hd by apply list_elem_of_here.
      specialize (IH Hd). lia.
    + apply elem_of_cons in H as [->|H]; [lia|].
      assert (x ∈ d :: ds) as Hx by (now apply list_elem_of_further).
      specialize (IH Hx). lia.
Qed.

Lemma on_day_nil (rs : list RawRecord) (day : Z) :
  (forall r, r ∈ rs -> day_of (recording_timestamp r) <> day) ->
  on_day day rs = [].
Proof.
  unfold on_day. induction rs as [|r rs IH]; intros H; [reflexivity|].
  rewrite filter_cons_False by (apply H, list_elem_of_here).
  apply IH. intros r' Hr'. apply H. now apply list_elem_of_further.
Qed.

(** Re-indexing the resampled frame on any list of days gives each day the
    aggregates of its own records: days between the first and the last
    record come from the resampled rows, days outside come out as NaN rows,
    and in both cases that is what the day's records give. *)
Lemma reindex_resample (rs : list RawRecord) (days : list Z) :
  reindex (resample_D rs) days = map (agg_day rs) days.
Proof.
  unfold reindex. apply map_ext. intros day. unfold resample_D.
  destruct (map (fun r => day_of (recording_timestamp r)) rs) as [|d ds] eqn:E.
  - simpl. destruct rs; [reflexivity | discriminate].
  - cbv zeta. rewrite find_agg_day.
    destruct (decide (day ∈ seqZ (fold_right Z.min d ds)
                               (fold_right Z.max d ds - fold_right Z.min d ds + 1)))
      as [Hin|Hnin]; [reflexivity|].
    symmetry. apply agg_day_no_records, on_day_nil. intros r Hr Hday.
    apply Hnin, elem_of_seqZ.
    assert (day ∈ d :: ds) as Hd.
    { rewrite <- E, <- Hday.
      apply (list_elem_of_fmap_2 (fun r => day_of (recording_timestamp r))), Hr. }
    pose proof (fold_min_max_bounds d ds day Hd). lia.
Qed.

Lemma compute_daily_stats_rows (gdf : DataFrame) (start_day end_day : Z) :
  has_pm2_5 gdf = true ->
  compute_daily_stats gdf start_day end_day =
  inr (map (fun day => daily_row (agg_day (rows gdf) day))
           (date_range start_day end_day)).
Proof.
  intros H. unfold compute_daily_stats. rewrite H, reindex_resample, map_map.
  reflexivity.
Qed.

Lemma compute_overall_stats_row (gdf : DataFrame) :
  has_pm2_5 gdf = true ->
  compute_overall_stats gdf =
  inr [ {| Date := Overall;
           PM2_5_Average := no_fillna (present (mean (pm2_5_values (rows gdf))));
           PM2_5_Median := no_fillna (present (median (pm2_5_values (rows gdf)))) |} ].
Proof. intros H. unfold compute_overall_stats. rewrite H. reflexivity. Qed.

Lemma date_range_days (start_day end_day : Z) (i : nat) (day : Z) :
  date_range start_day end_day !! i = Some day <->
  day = (start_day + Z.of_nat i)%Z /\ (day <= end_day)%Z.
Proof. unfold date_range. rewrite lookup_seqZ. split; intros [-> H]; split; lia. Qed.

(** The worked example: readings of 500 and 1500 on the first day, none on
    the second, 1000 on the third. *)
Example three_readings_table :
  compute_daily_stats (normalize three_readings) 19083 19085 =
    inr [ {| Date := Day 19083; PM2_5_Average := Num 10; PM2_5_Median := Num 10 |};
          {| Date := Day 19084; PM2_5_Average := missing; PM2_5_Median := missing |};
          {| Date := Day 19085; PM2_5_Average := Num 10; PM2_5_Median := Num 10 |} ] /\
  compute_overall_stats (normalize three_readings) =
    inr [ {| Date := Overall; PM2_5_Average := Num 10; PM2_5_Median := Num 10 |} ].
Proof. split; vm_compute; reflexivity. Qed.

(** X21.  When the frame handed to the statistics blocks has its pm2_5
    column, the blocks succeed and the table they give is one row per day
    of the window, from the start day to the end day in order, however few
    of the days have records, followed by one row dated "Overall". *)
Theorem daily_table_has_every_window_day (gdf : DataFrame)
    (start_day end_day : Z) :
  has_pm2_5 gdf = true ->
  exists daily overall,
    compute_daily_stats gdf start_day end_day = inr daily /\
    compute_overall_stats gdf = inr [overall] /\
    map Date (concat_stats daily [overall]) =
      map Day (date_range start_day end_day) ++ [Overall] /\
    (forall i day,
       date_range start_day end_day !! i = Some day <->
       day = (start_day + Z.of_nat i)%Z /\ (day <= end_day)%Z) /\
    length daily = Z.to_nat (end_day - start_day + 1).
Proof.
  intros Hcol. eexists. eexists.
  split; [exact (compute_daily_stats_rows _ _ _ Hcol)|].
  split; [exact (compute_overall_stats_row _ Hcol)|].
  split; [|split].
  - unfold concat_stats. rewrite map_app, map_map. reflexivity.
  - intros i day. apply date_range_days.
  - rewrite length_map. apply length_seqZ.
Qed.

Lemma daily_table_has_every_window_day_witness :
  exists daily overall,
    compute_daily_stats (normalize three_readings) 19083 19085 = inr daily /\
    compute_overall_stats (normalize three_readings) = inr [overall] /\
    map Date (concat_stats daily [overall]) =
      [Day 19083; Day 19084; Day 19085; Overall].
Proof.
  destruct (daily_table_has_every_window_day (normalize three_readings)
              19083 19085 eq_refl) as (daily & overall & H1 & H2 & H3 & _).
  exists daily, overall. split; [exact H1|]. split; [exact H2 | exact H3].
Defined.

(** X22.  When the frame has its pm2_5 column, a day of the window on
    which the area has no record gets the row (day, missing, missing), and
    no other row carries that day.  The
    division by 100 and the rounding leave the NaN cells of such a row as
    they are; the marker is filled in afterwards.  The Overall row is
    computed from the pm2_5 values of the records, never from the rows of
    the table, and leaving that day out changes none of those values. *)
Theorem missing_day_row (gdf : DataFrame) (start_day end_day day : Z) :
  has_pm2_5 gdf = true ->
  (start_day <= day <= end_day)%Z ->
  on_day day (rows gdf) = [] ->
  exists daily overall,
    compute_daily_stats gdf start_day end_day = inr daily /\
    compute_overall_stats gdf = inr [overall] /\
    concat_stats daily [overall] !! Z.to_nat (day - start_day) =
      Some {| Date := Day day; PM2_5_Average := missing; PM2_5_Median := missing |} /\
    (forall row, row ∈ concat_stats daily [overall] -> Date row = Day day ->
       PM2_5_Average row = missing /\ PM2_5_Median row = missing) /\
    fillna (present None) = missing /\
    overall =
      {| Date := Overall;
         PM2_5_Average := no_fillna (present (mean (pm2_5_values (rows gdf))));
         PM2_5_Median := no_fillna (present (median (pm2_5_values (rows gdf)))) |} /\
    pm2_5_values
      (filter (fun r => day_of (recording_timestamp r) <> day) (rows gdf)) =
    pm2_5_values (rows gdf).
Proof.
  intros Hcol Hday Hnone.
  eexists. eexists.
  split; [exact (compute_daily_stats_rows _ _ _ Hcol)|].
  split; [exact (compute_overall_stats_row _ Hcol)|].
  assert (daily_row (agg_day (rows gdf) day) =
          {| Date := Day day; PM2_5_Average := missing; PM2_5_Median := missing |})
    as Hrow by (rewrite (agg_day_no_records _ _ Hnone); reflexivity).
  split; [|split; [|split; [reflexivity|split; [reflexivity|]]]].
  - unfold concat_stats, StatsTable. rewrite lookup_app_l.
    + rewrite list_lookup_fmap. unfold date_range.
      rewrite lookup_seqZ_lt by lia. cbn [fmap option_fmap option_map].
      replace (start_day + Z.of_nat (Z.to_nat (day - start_day)))%Z with day by lia.
      rewrite Hrow. reflexivity.
    + rewrite length_map. unfold date_range. rewrite length_seqZ. lia.
  - intros row Hin Hdate. unfold concat_stats in Hin.
    apply elem_of_app in Hin as [Hin|Hin].
    + apply list_elem_of_fmap in Hin as (d & -> & _).
      simpl in Hdate. injection Hdate as ->. rewrite Hrow. split; reflexivity.
    + apply list_elem_of_singleton in Hin as ->. discriminate.
  - f_equal. clear -Hnone. unfold on_day in Hnone.
    induction (rows gdf) as [|r rs IH]; [reflexivity|].
    destruct (decide (day_of (recording_timestamp r) = day)) as [Heq|Hne].
    + rewrite filter_cons_True in Hnone by exact Heq. discriminate.
    + rewrite filter_cons_False in Hnone by exact Hne.
      rewrite filter_cons_True by exact Hne. f_equal. exact (IH Hnone).
Qed.

(** C10.  Records dated outside the window leave the daily rows as they
    would be without them, and no daily row carries their day; the Overall
    row is computed from the pm2_5 values of all records of the frame,
    theirs included. *)
Theorem outside_days_count_in_overall_only (gdf : DataFrame)
    (start_day end_day : Z) :
  has_pm2_5 gdf = true ->
  exists daily overall,
    compute_daily_stats gdf start_day end_day = inr daily /\
    compute_overall_stats gdf = inr [overall] /\
    compute_daily_stats
      (with_rows gdf
         (filter (fun r => (start_day <= day_of (recording_timestamp r) <= end_day)%Z)
                 (rows gdf)))
      start_day end_day = inr daily /\
    (forall r row,
       r ∈ rows gdf ->
       ~ (start_day <= day_of (recording_timestamp r) <= end_day)%Z ->
       row ∈ concat_stats daily [overall] ->
       Date row <> Day (day_of (recording_timestamp r))) /\
    overall =
      {| Date := Overall;
         PM2_5_Average := no_fillna (present (mean (pm2_5_values (rows gdf))));
         PM2_5_Median := no_fillna (present (median (pm2_5_values (rows gdf)))) |} /\
    (forall r v, r ∈ rows gdf -> pm2_5 r = Val v -> v ∈ pm2_5_values (rows gdf)).
Proof.
  intros Hcol. eexists. eexists.
  split; [exact (compute_daily_stats_rows _ _ _ Hcol)|].
  split; [exact (compute_overall_stats_row _ Hcol)|].
  split; [|split; [|split; [reflexivity|]]].
  - rewrite compute_daily_stats_rows by exact Hcol. f_equal.
    apply map_ext_in. intros day Hin. apply list_elem_of_In, elem_of_seqZ in Hin.
    unfold agg_day, on_day. cbn [rows with_rows].
    rewrite list_filter_filter_l; [reflexivity|].
    intros r <-. lia.
  - intros r row Hr Hout Hin Hdate. unfold concat_stats in Hin.
    apply elem_of_app in Hin as [Hin|Hin].
    + apply list_elem_of_fmap in Hin as (d & -> & Hd).
      simpl in Hdate. injection Hdate as ->.
      apply elem_of_seqZ in Hd. apply Hout. lia.
    + apply list_elem_of_singleton in Hin as ->. discriminate.
  - intros r v Hr Hv. unfold pm2_5_values. apply list_elem_of_omap.
    exists r. split; [exact Hr|]. rewrite Hv. reflexivity.
Qed.

Lemma missing_day_row_witness :
  exists daily overall,
    compute_daily_stats (normalize three_readings) 19083 19085 = inr daily /\
    compute_overall_stats (normalize three_readings) = inr [overall] /\
    concat_stats daily [overall] !! 1%nat =
      Some {| Date := Day 19084; PM2_5_Average := missing; PM2_5_Median := missing |}.
Proof.
  destruct (missing_day_row (normalize three_readings) 19083 19085 19084)
    as (daily & overall & H1 & H2 & H3 & _);
    [reflexivity | lia | reflexivity |].
  exists daily, overall. split; [exact H1|]. split; [exact H2 | exact H3].
Defined.

Lemma outside_days_count_in_overall_only_witness :
  exists daily overall,
    compute_daily_stats (normalize one_reading_early) 19083 19085 = inr daily /\
    compute_overall_stats (normalize one_reading_early) = inr [overall] /\
    map Date daily = [Day 19083; Day 19084; Day 19085] /\
    PM2_5_Average overall = Num 10 /\
    compute_overall_stats (normalize [reading 1648807200 500]) =
      inr [ {| Date := Overall; PM2_5_Average := Num 5; PM2_5_Median := Num 5 |} ].
Proof.
  destruct (outside_days_count_in_overall_only (normalize one_reading_early)
              19083 19085)
    as (daily & overall & H1 & H2 & _ & _ & H3 & _); [reflexivity|].
  exists daily, overall. split; [exact H1|]. split; [exact H2|].
  split; [|split].
  - vm_compute in H1. injection H1 as <-. reflexivity.
  - rewrite H3. vm_compute. reflexivity.
  - vm_compute. reflexivity.
Defined.

(** ** Failure isolation *)

(** C4 fails on the code.  The handler of the daily-statistics block
    prints and falls through, so a window of five days whose
    records lack the pm2_5 column gets, under its own label, the table of
    the window before it: three day rows, of 2022, and the Overall row.
    When no window went before, the unassigned variable raises and the
    area, although one record lies inside it, gets no table at all. *)
Theorem stale_table_has_rows_of_another_window :
  (exists st t,
     run 2 source_2022 [highfive_area] [april_2022; window_5_days]
       keyless_cache_5_days = Some st /\
     rows (within (normalize [keyless_reading]) everywhere) = [keyless_reading] /\
     all_stats_sections st =
       [("highfive_area (2022-04-01 to 2022-04-03)", table_2022);
        ("highfive_area (2023-04-01 to 2023-04-05)", t)] /\
     map Date t = [Day 19083; Day 19084; Day 19085; Overall] /\
     date_range (start_day window_5_days) (end_day window_5_days) =
       [19448; 19449; 19450; 19451; 19452]%Z) /\
  (exists st,
     run 2 source_2022 [highfive_area] [window_5_days] keyless_cache_5_days
       = Some st /\
     all_stats_sections st = [] /\
     console st =
       [LoadingCache "data3/api_cache_2023-04-01_to_2023-04-05.json";
        ErrorDailyStats "highfive_area" (KeyError "pm2_5");
        ErrorOverallStats "highfive_area" (KeyError "pm2_5");
        ErrorDateRange "2023-04-01" "2023-04-05" (NameError "daily_stats")]).
Proof.
  split.
  - destruct (returned
                (run 2 source_2022 [highfive_area] [april_2022; window_5_days]
                   keyless_cache_5_days)
                (fun st =>
                   all_stats_sections st =
                   [("highfive_area (2022-04-01 to 2022-04-03)", table_2022);
                    ("highfive_area (2023-04-01 to 2023-04-05)", table_2022)]))
      as (st & Hrun & Hs); [vm_compute; reflexivity|].
    exists st, table_2022. split; [exact Hrun|].
    split; [reflexivity|]. split; [exact Hs|]. split; reflexivity.
  - apply returned. vm_compute. split; reflexivity.
Qed.

(** C5 fails on the code, by the fall-through of the daily-statistics
    handler.  The second window starts on 2022-04-03; its only record, of 2022-04-04, lacks the pm2_5
    column.  The table filed under its label is the table of the first
    window, and the row of 2022-04-03, a day of the second window on which
    the area has no record, shows 10 and 10 instead of the marker. *)
Theorem stale_table_shows_numbers_on_empty_day :
  exists st t row,
    run 2 source_2022 [highfive_area] [april_2022; overlapping_window]
      keyless_cache_overlap = Some st /\
    all_stats_sections st =
      [("highfive_area (2022-04-01 to 2022-04-03)", table_2022);
       ("highfive_area (2022-04-03 to 2022-04-05)", t)] /\
    (start_day overlapping_window <= 19085 <= end_day overlapping_window)%Z /\
    on_day 19085 (rows (within (normalize [keyless_reading_0404]) everywhere)) = [] /\
    row ∈ t /\
    Date row = Day 19085 /\
    PM2_5_Average row = Num 10 /\
    PM2_5_Median row = Num 10.
Proof.
  destruct (returned
              (run 2 source_2022 [highfive_area] [april_2022; overlapping_window]
                 keyless_cache_overlap)
              (fun st =>
                 all_stats_sections st =
                 [("highfive_area (2022-04-01 to 2022-04-03)", table_2022);
                  ("highfive_area (2022-04-03 to 2022-04-05)", table_2022)]))
    as (st & Hrun & Hs); [vm_compute; reflexivity|].
  exists st, table_2022,
    {| Date := Day 19085; PM2_5_Average := Num 10; PM2_5_Median := Num 10 |}.
  split; [exact Hrun|]. split; [exact Hs|]. split; [simpl; lia|].
  split; [reflexivity|]. split; [|repeat split].
  unfold table_2022.
  repeat (first [apply list_elem_of_here | apply list_elem_of_further]).
Qed.

(** C8 fails on the code.  The handler of the daily-statistics block prints
    and falls through to the statements that use [daily_stats].  In a
    window whose records lack the pm2_5 column, reached after a window that
    went well, the table of the earlier window is filed under the later
    window's label.  When no earlier unit went well, the use of the
    unassigned variable raises, the window's handler takes over, and the
    areas that follow in that window are never looked at. *)
Theorem daily_stats_error_is_not_isolated :
  (exists st t,
     run 2 source_2022 [highfive_area] [april_2022; april_2023] keyless_cache
       = Some st /\
     all_stats_sections st =
       [("highfive_area (2022-04-01 to 2022-04-03)", t);
        ("highfive_area (2023-04-01 to 2023-04-03)", t)] /\
     map Date t = [Day 19083; Day 19084; Day 19085; Overall] /\
     ErrorDailyStats "highfive_area" (KeyError "pm2_5") ∈ console st) /\
  (exists st,
     run 2 source_2022 [highfive_area; second_area] [april_2023] keyless_cache
       = Some st /\
     console st =
       [LoadingCache "data3/api_cache_2023-04-01_to_2023-04-03.json";
        ErrorDailyStats "highfive_area" (KeyError "pm2_5");
        ErrorOverallStats "highfive_area" (KeyError "pm2_5");
        ErrorDateRange "2023-04-01" "2023-04-03" (NameError "daily_stats")]).
Proof.
  split.
  - destruct (returned
                (run 2 source_2022 [highfive_area] [april_2022; april_2023]
                   keyless_cache)
                (fun st =>
                   all_stats_sections st =
                   [("highfive_area (2022-04-01 to 2022-04-03)", table_2022);
                    ("highfive_area (2023-04-01 to 2023-04-03)", table_2022)] /\
                   console st !! 5%nat =
                   Some (ErrorDailyStats "highfive_area" (KeyError "pm2_5"))))
      as (st & Hrun & Hs & Hc); [vm_compute; split; reflexivity|].
    exists st, table_2022. split; [exact Hrun|]. split; [exact Hs|].
    split; [reflexivity|]. exact (list_elem_of_lookup_2 _ _ _ Hc).
  - apply returned. vm_compute. reflexivity.
Qed.

(** ** Sheet names *)

Lemma list_of_replace_char (char : ascii) (name : string) :
  String.list_ascii_of_string (replace_char char name) =
  List.filter (fun a => negb (Ascii.eqb a char)) (String.list_ascii_of_string name).
Proof.
  induction name as [|a name IH]; [reflexivity|].
  simpl. destruct (Ascii.eqb a char); simpl; rewrite IH; reflexivity.
Qed.

Lemma filter_twice {A : Type} (p q : A -> bool) (l : list A) :
  List.filter p (List.filter q l) = List.filter (fun a => q a && p a) l.
Proof.
  induction l as [|a l IH]; [reflexivity|].
  simpl. destruct (q a); simpl; [destruct (p a)|]; rewrite IH; reflexivity.
Qed.

Lemma list_of_replace_all (chars : list ascii) :
  forall name : string,
    String.list_ascii_of_string
      (fold_left (fun name char => replace_char char name) chars name) =
    List.filter (fun a => negb (existsb (Ascii.eqb a) chars))
                (String.list_ascii_of_string name).
Proof.
  induction chars as [|char chars IH]; intros name.
  - simpl. induction (String.list_ascii_of_string name) as [|a l IHl];
      [reflexivity | simpl; rewrite <- IHl; reflexivity].
  - cbn [fold_left]. rewrite IH, list_of_replace_char, filter_twice.
    apply filter_ext. intros a. simpl. rewrite negb_orb. reflexivity.
Qed.

Lemma list_of_substring_0 (n : nat) :
  forall s : string,
    String.list_ascii_of_string (String.substring 0 n s) = firstn n (String.list_ascii_of_string s).
Proof.
  induction n as [|n IH]; intros [|a s]; simpl; try reflexivity.
  rewrite IH. reflexivity.
Qed.

(** The nine replacements amount to one pass that keeps the valid
    characters; the result is the first 31 of them. *)
Lemma list_of_sanitize_sheet_name (name : string) :
  String.list_ascii_of_string (sanitize_sheet_name name) =
  firstn 31 (List.filter (fun a => negb (is_invalid a)) (String.list_ascii_of_string name)).
Proof.
  unfold sanitize_sheet_name. rewrite list_of_substring_0, list_of_replace_all.
  reflexivity.
Qed.

Lemma string_length_list_of (s : string) :
  String.length s = length (String.list_ascii_of_string s).
Proof. induction s as [|a s IH]; simpl; [|rewrite IH]; reflexivity. Qed.

Lemma list_of_inj (s1 s2 : string) :
  String.list_ascii_of_string s1 = String.list_ascii_of_string s2 -> s1 = s2.
Proof.
  intros H. rewrite <- (String.string_of_list_ascii_of_string s1),
    <- (String.string_of_list_ascii_of_string s2), H. reflexivity.
Qed.

Lemma filter_all_true {A : Type} (p : A -> bool) (l : list A) :
  (forall a, In a l -> p a = true) -> List.filter p l = l.
Proof.
  induction l as [|a l IH]; intros H; [reflexivity|].
  simpl. rewrite (H a (or_introl eq_refl)). f_equal. apply IH.
  intros b Hb. apply H. right. exact Hb.
Qed.

Lemma In_firstn {A : Type} (n : nat) (l : list A) (a : A) :
  In a (firstn n l) -> In a l.
Proof.
  intros H. rewrite <- (firstn_skipn n l). apply in_or_app. left. exact H.
Qed.

Lemma is_invalid_spec (a : ascii) : is_invalid a = true <-> In a invalid_chars.
Proof.
  unfold is_invalid. rewrite existsb_exists. split.
  - intros (c & Hc & Heq). apply Ascii.eqb_eq in Heq. subst. exact Hc.
  - intros H. exists a. split; [exact H | apply Ascii.eqb_refl].
Qed.

(** X1.  A sanitized name has at most 31 characters, none of them one of
    the nine characters the function removes, and all of them characters
    of the name. *)
Theorem sanitize_sheet_name_valid (name : string) (a : ascii) :
  (String.length (sanitize_sheet_name name) <= 31)%nat /\
  (In a (String.list_ascii_of_string (sanitize_sheet_name name)) ->
   ~ In a invalid_chars /\ In a (String.list_ascii_of_string name)).
Proof.
  rewrite string_length_list_of, list_of_sanitize_sheet_name. split.
  - rewrite length_firstn. lia.
  - intros H. apply In_firstn, filter_In in H as [Hin Hvalid]. split; [|exact Hin].
    intros Hbad. apply is_invalid_spec in Hbad. rewrite Hbad in Hvalid. discriminate.
Qed.

Lemma sanitize_sheet_name_valid_witness :
  (String.length (sanitize_sheet_name "a b/c") <= 31)%nat /\
  ~ In "c"%char invalid_chars.
Proof.
  destruct (sanitize_sheet_name_valid "a b/c" "c"%char) as [H1 H2].
  split; [exact H1|]. apply H2. vm_compute. tauto.
Defined.

(** X2.  Sanitizing is idempotent, and a name of at most 31 characters
    without any of the nine characters comes back unchanged. *)
Theorem sanitize_sheet_name_fixpoint (name : string) :
  sanitize_sheet_name (sanitize_sheet_name name) = sanitize_sheet_name name /\
  ((String.length name <= 31)%nat ->
   (forall a, In a (String.list_ascii_of_string name) -> ~ In a invalid_chars) ->
   sanitize_sheet_name name = name).
Proof.
  assert (forall s : string,
            (String.length s <= 31)%nat ->
            (forall a, In a (String.list_ascii_of_string s) -> ~ In a invalid_chars) ->
            sanitize_sheet_name s = s) as Hclean.
  { intros s Hlen Hok. apply list_of_inj. rewrite list_of_sanitize_sheet_name.
    rewrite filter_all_true.
    - apply firstn_all2. rewrite <- string_length_list_of. exact Hlen.
    - intros a Ha. apply negb_true_iff.
      destruct (is_invalid a) eqn:E; [|reflexivity].
      apply is_invalid_spec in E. exfalso. exact (Hok a Ha E). }
  split; [|apply Hclean].
  apply Hclean.
  - rewrite string_length_list_of, list_of_sanitize_sheet_name, length_firstn. lia.
  - intros a Ha.
    rewrite list_of_sanitize_sheet_name in Ha.
    apply In_firstn, filter_In in Ha as [_ Hvalid].
    intros Hbad. apply is_invalid_spec in Hbad. rewrite Hbad in Hvalid. discriminate.
Qed.

Lemma sanitize_sheet_name_fixpoint_witness :
  sanitize_sheet_name "highfive_area" = "highfive_area".
Proof.
  destruct (sanitize_sheet_name_fixpoint "highfive_area") as [_ H].
  apply H; [simpl; lia|].
  intros a Ha Hbad. vm_compute in Ha, Hbad.
  repeat (destruct Ha as [<-|Ha];
          [repeat (destruct Hbad as [Hbad|Hbad]; [discriminate|]); exact Hbad|]).
  exact Ha.
Defined.

(** X3.  Everything after the first 31 valid characters is cut off: once
    a name has that many, whatever follows it does not show in the sheet
    name. *)
Theorem sanitize_sheet_name_ignores_tail (name tail : string) :
  (31 <= length (List.filter (fun a => negb (is_invalid a))
                             (String.list_ascii_of_string name)))%nat ->
  sanitize_sheet_name (name +:+ tail) = sanitize_sheet_name name.
Proof.
  intros H. apply list_of_inj.
  rewrite !list_of_sanitize_sheet_name, list_of_append, List.filter_app, firstn_app.
  replace (31 - _)%nat with 0%nat by lia.
  rewrite firstn_0, app_nil_r. reflexivity.
Qed.

Lemma sanitize_sheet_name_ignores_tail_witness :
  sanitize_sheet_name ("highfive_area_2022-04-01_2022-0" +:+ "5-31") =
  sanitize_sheet_name "highfive_area_2022-04-01_2022-0".
Proof.
  apply sanitize_sheet_name_ignores_tail. vm_compute. lia.
Defined.

(** With the configured area name the cut falls inside the end date: two
    windows that start on the same day and end in May and in June get the
    same sheet name. *)
Example sheet_name_collision :
  sheet_name "highfive_area" (mkWindow "2022-04-01" "2022-05-31" 19083 19143) =
  sheet_name "highfive_area" (mkWindow "2022-04-01" "2022-06-30" 19083 19173).
Proof. vm_compute. reflexivity. Qed.

(** ** More on pagination and the cache *)

Lemma serves_cons (remote : Remote) (w : DateWindow) (offset : Z)
    (page : list RawRecord) (pages : list (list RawRecord)) :
  page <> [] ->
  remote (query w offset) = Records page ->
  serves remote w (offset + limit) pages ->
  serves remote w offset (page :: pages).
Proof.
  intros Hne Hr Hs [|i] p Hi.
  - injection Hi as <-. split; [exact Hne|].
    replace (offset + Z.of_nat 0 * limit)%Z with offset by lia. exact Hr.
  - destruct (Hs i p Hi) as [Hp Hq]. split; [exact Hp|].
    replace (offset + Z.of_nat (S i) * limit)%Z
      with (offset + limit + Z.of_nat i * limit)%Z by lia.
    exact Hq.
Qed.

Lemma offsets_cons (offset : Z) (n : nat) :
  offsets offset (S n) = offset :: offsets (offset + limit) n.
Proof.
  unfold offsets. cbn [seq map]. f_equal; [lia|].
  rewrite <- seq_shift, map_map. apply map_ext. intros i. lia.
Qed.

Lemma same_results_refl (st : State) : same_results st st.
Proof. repeat split. Qed.

Lemma same_results_trans (st1 st2 st3 : State) :
  same_results st1 st2 -> same_results st2 st3 -> same_results st1 st3.
Proof.
  intros (H1 & H2 & H3 & H4) (H1' & H2' & H3' & H4').
  repeat split; congruence.
Qed.

Lemma same_results_sym (st1 st2 : State) :
  same_results st1 st2 -> same_results st2 st1.
Proof. intros (H1 & H2 & H3 & H4). repeat split; congruence. Qed.

(** The loop leaves the variables and outputs alone. *)
Lemma fetch_loop_same_results (remote : Remote) (w : DateWindow) (fuel : nat) :
  forall (offset : Z) (all_records : list RawRecord) (st : State) res st',
    fetch_loop fuel remote w offset all_records st = Some (res, st') ->
    same_results st st'.
Proof.
  induction fuel as [|fuel IH]; intros offset all_records st res st' H;
    [discriminate|].
  cbn [fetch_loop] in H.
  destruct (remote (query w offset)) as [| | |e|records];
    try (injection H as _ <-; repeat split).
  destruct records as [|r records]; [injection H as _ <-; repeat split|].
  apply IH in H. destruct H as (H1 & H2 & H3 & H4).
  repeat split; simpl in *; assumption.
Qed.

(** An exception leaves the loop only on a body that cannot be used. *)
Lemma fetch_loop_raises (remote : Remote) (w : DateWindow) (fuel : nat) :
  forall (offset : Z) (all_records : list RawRecord) (st : State) e st',
    fetch_loop fuel remote w offset all_records st = Some (inl e, st') ->
    exists q, remote q = InvalidJSON \/ remote q = Malformed e.
Proof.
  induction fuel as [|fuel IH]; intros offset all_records st e st' H;
    [discriminate|].
  cbn [fetch_loop] in H.
  destruct (remote (query w offset)) as [| | |e0|records] eqn:Hr;
    try discriminate.
  - eexists. left. exact Hr.
  - injection H as <- _. eexists. right. exact Hr.
  - destruct records as [|r records]; [discriminate|].
    exact (IH _ _ _ _ _ H).
Qed.

(** X4.  However the pagination loop ends, it ends after a run of
    non-empty pages, one request per page plus the one that stopped it.
    Records come back only when that last answer was an empty page or a
    failed request, and they are the pages joined in order; an exception
    comes out only when the last body could not be decoded, or decoded to
    something lines 120-123 cannot use, and it is that line's exception.
    The loop changes nothing but the request log and the console. *)
Theorem fetch_loop_outcome (remote : Remote) (w : DateWindow) (fuel : nat) :
  forall (offset : Z) (all_records : list RawRecord) (st : State) res st',
    fetch_loop fuel remote w offset all_records st = Some (res, st') ->
    exists pages,
      serves remote w offset pages /\
      (length pages < fuel)%nat /\
      requests st' =
        requests st ++ map (query w) (offsets offset (S (length pages))) /\
      files st' = files st /\
      same_results st st' /\
      match res with
      | inr records =>
        records = all_records ++ concat pages /\
        (remote (query w (offset + Z.of_nat (length pages) * limit)) = Records [] \/
         remote (query w (offset + Z.of_nat (length pages) * limit)) = HTTPError \/
         remote (query w (offset + Z.of_nat (length pages) * limit)) = ConnectionError)
      | inl e =>
        (e = JSONDecodeError /\
         remote (query w (offset + Z.of_nat (length pages) * limit)) = InvalidJSON) \/
        remote (query w (offset + Z.of_nat (length pages) * limit)) = Malformed e
      end.
Proof.
  induction fuel as [|fuel IH]; intros offset all_records st res st' H;
    [discriminate|].
  cbn [fetch_loop] in H.
  assert (forall m (res0 : exn + list RawRecord),
            Some (res0, print m (send (query w offset) st)) = Some (res, st') ->
            (match res0 with
             | inr records =>
               records = all_records ++ concat [] /\
               (remote (query w (offset + Z.of_nat 0 * limit)) = Records [] \/
                remote (query w (offset + Z.of_nat 0 * limit)) = HTTPError \/
                remote (query w (offset + Z.of_nat 0 * limit)) = ConnectionError)
             | inl e =>
               (e = JSONDecodeError /\
                remote (query w (offset + Z.of_nat 0 * limit)) = InvalidJSON) \/
               remote (query w (offset + Z.of_nat 0 * limit)) = Malformed e
             end) ->
            exists pages,
              serves remote w offset pages /\
              (length pages < S fuel)%nat /\
              requests st' =
                requests st ++ map (query w) (offsets offset (S (length pages))) /\
              files st' = files st /\
              same_results st st' /\
              match res with
              | inr records =>
                records = all_records ++ concat pages /\
                (remote (query w (offset + Z.of_nat (length pages) * limit)) = Records [] \/
                 remote (query w (offset + Z.of_nat (length pages) * limit)) = HTTPError \/
                 remote (query w (offset + Z.of_nat (length pages) * limit)) = ConnectionError)
              | inl e =>
                (e = JSONDecodeError /\
                 remote (query w (offset + Z.of_nat (length pages) * limit)) = InvalidJSON) \/
                remote (query w (offset + Z.of_nat (length pages) * limit)) = Malformed e
              end) as Hstop.
  { intros m res0 Heq Hres. injection Heq as <- <-. exists [].
    split; [intros i p Hi; discriminate|]. split; [simpl; lia|].
    split; [simpl; do 3 f_equal; lia|]. split; [reflexivity|].
    split; [unfold same_results; simpl; auto | exact Hres]. }
  assert ((offset + Z.of_nat 0 * limit)%Z = offset) as H0 by lia.
  destruct (remote (query w offset)) as [| | |e0|records] eqn:Hr.
  - apply (Hstop _ _ H). simpl. rewrite H0, Hr, app_nil_r. auto.
  - apply (Hstop _ _ H). simpl. rewrite H0, Hr, app_nil_r. auto.
  - apply (Hstop _ _ H). rewrite H0, Hr. auto.
  - apply (Hstop _ _ H). rewrite H0, Hr. auto.
  - destruct records as [|r records].
    + apply (Hstop _ _ H). simpl. rewrite H0, Hr, app_nil_r. auto.
    + apply IH in H as (pages & Hs & Hlen & Hreq & Hfiles & Hsame & Hres).
      exists ((r :: records) :: pages).
      split; [apply serves_cons; [discriminate | exact Hr | exact Hs]|].
      split; [simpl; lia|].
      split; [rewrite Hreq; cbn [length]; rewrite (offsets_cons offset);
              simpl; rewrite <- app_assoc; reflexivity|].
      split; [exact Hfiles|].
      split; [exact Hsame|].
      cbn [length concat].
      replace (offset + Z.of_nat (S (length pages)) * limit)%Z
        with (offset + limit + Z.of_nat (length pages) * limit)%Z by lia.
      destruct res as [e|recs]; [exact Hres|].
      destruct Hres as [-> Hlast]. split; [|exact Hlast].
      rewrite <- app_assoc. reflexivity.
Qed.

Lemma fetch_loop_outcome_witness :
  exists pages,
    serves three_pages_source april_2022 0 pages /\
    (length pages < 4)%nat /\
    concat [full_page; full_page; short_page] = [] ++ concat pages.
Proof.
  destruct (fetch_loop_outcome three_pages_source april_2022 4 0 [] (initial ∅)
              (inr (concat [full_page; full_page; short_page]))
              (print (Fetching 30000)
                 (send (query april_2022 30000)
                    (paged april_2022 0 3 (initial ∅)))))
    as (pages & H1 & H2 & _ & _ & _ & H3 & _).
  - apply (fetch_loop_stops three_pages_source april_2022
             [full_page; full_page; short_page] 4 (initial ∅)
             (Fetching 30000) three_pages_served); [simpl; lia|].
    left. split; reflexivity.
  - exists pages. split; [exact H1|]. split; [exact H2 | exact H3].
Defined.

(** X5.  The loop is still running after [fuel] requests exactly when the
    source answered each of them with a non-empty page: a source that never
    runs dry and never fails keeps the script in the loop for ever. *)
Theorem fetch_loop_runs_on (remote : Remote) (w : DateWindow) (fuel : nat)
    (offset : Z) (all_records : list RawRecord) (st : State) :
  fetch_loop fuel remote w offset all_records st = None <->
  exists pages, length pages = fuel /\ serves remote w offset pages.
Proof.
  split.
  - revert offset all_records st.
    induction fuel as [|fuel IH]; intros offset all_records st H.
    + exists []. split; [reflexivity|]. intros i p Hi. discriminate.
    + cbn [fetch_loop] in H.
      destruct (remote (query w offset)) as [| | |e|records] eqn:Hr;
        try discriminate.
      destruct records as [|r records]; [discriminate|].
      apply IH in H as (pages & Hlen & Hs).
      exists ((r :: records) :: pages). split; [simpl; lia|].
      apply serves_cons; [discriminate | exact Hr | exact Hs].
  - intros (pages & Hlen & Hs).
    apply (fetch_loop_running remote w pages); [exact Hs | lia].
Qed.

Lemma fetch_loop_runs_on_witness :
  fetch_loop 3 endless_source april_2022 0 [] (initial ∅) = None.
Proof.
  apply (fetch_loop_runs_on endless_source april_2022 3 0 [] (initial ∅)).
  exists [full_page; full_page; full_page]. split; [reflexivity|].
  intros i page Hi.
  destruct i as [|[|[|i]]]; simpl in Hi; try discriminate;
    injection Hi as <-; (split; [discriminate | reflexivity]).
Defined.

(** X6.  When the body of some page cannot be decoded, the exception
    leaves the loop and the window: the pages fetched before it are
    dropped, no cache file is written, and the window adds nothing to the
    summary list or the extracts; the window's handler prints the error and
    the script goes on.  A failed request, in contrast, keeps the
    pages. *)
Theorem undecodable_body_drops_window (fuel : nat) (remote : Remote)
    (areas : list Area) (w : DateWindow) (pages : list (list RawRecord))
    (st : State) :
  files st !! cache_file_path w = None ->
  serves remote w 0 pages ->
  remote (query w (Z.of_nat (length pages) * limit)) = InvalidJSON ->
  (length pages < fuel)%nat ->
  exists st',
    date_range_body fuel remote areas w st = Some st' /\
    files st' = files st /\
    same_results st st' /\
    requests st' = requests st ++ map (query w) (offsets 0 (S (length pages))) /\
    exists printed,
      console st' =
        printed ++ [ErrorDateRange (start_date w) (end_date w) JSONDecodeError].
Proof.
  intros Hmiss Hs Hbad Hf.
  destruct (fuel_split _ _ Hf) as [k ->].
  pose proof (fetch_loop_pages remote w pages (S k) 0 [] st Hs) as Hloop.
  cbn [fetch_loop] in Hloop. rewrite Z.add_0_l, Hbad in Hloop.
  unfold date_range_body, load_or_fetch. rewrite Hmiss, Hloop.
  eexists. split; [reflexivity|].
  unfold except_date_range, print, send. cbn [files requests console].
  split; [apply files_paged|].
  split.
  - unfold same_results. simpl. clear.
    generalize 0%Z. generalize st. induction (length pages) as [|n IH];
      intros st0 z; [auto|]. cbn [paged].
    destruct (IH (print (Fetching z) (send (query w z) st0)) (z + limit)%Z)
      as (H1 & H2 & H3 & H4).
    simpl in *. auto.
  - split; [|eexists; reflexivity].
    rewrite requests_paged, offsets_snoc, map_app, <- app_assoc. reflexivity.
Qed.

Lemma undecodable_body_drops_window_witness :
  exists st',
    date_range_body 2 garbled_second_page [highfive_area] april_2022 (initial ∅)
      = Some st' /\
    files st' = ∅ /\
    all_stats_sections st' = [].
Proof.
  destruct (undecodable_body_drops_window 2 garbled_second_page [highfive_area]
              april_2022 [full_page] (initial ∅))
    as (st' & H1 & H2 & (_ & _ & H3 & _) & _).
  - reflexivity.
  - intros [|i] page H; simpl in H; try discriminate.
    injection H as <-. split; [discriminate | reflexivity].
  - reflexivity.
  - simpl. lia.
  - exists st'. split; [exact H1|]. split; [exact H2 | symmetry; exact H3].
Defined.

(** X23.  A body that decodes but that lines 120-123 cannot use, such as
    an object whose result is null, ends the window in the same way: the
    exception of that line leaves the loop outside the inner handler, the
    pages fetched before it are dropped, no cache file is written, and
    nothing is added to the summary list or the extracts. *)
Theorem unusable_body_drops_window (fuel : nat) (remote : Remote)
    (areas : list Area) (w : DateWindow) (pages : list (list RawRecord))
    (e : exn) (st : State) :
  files st !! cache_file_path w = None ->
  serves remote w 0 pages ->
  remote (query w (Z.of_nat (length pages) * limit)) = Malformed e ->
  (length pages < fuel)%nat ->
  exists st',
    date_range_body fuel remote areas w st = Some st' /\
    files st' = files st /\
    same_results st st' /\
    requests st' = requests st ++ map (query w) (offsets 0 (S (length pages))) /\
    exists printed,
      console st' = printed ++ [ErrorDateRange (start_date w) (end_date w) e].
Proof.
  intros Hmiss Hs Hbad Hf.
  destruct (fuel_split _ _ Hf) as [k ->].
  pose proof (fetch_loop_pages remote w pages (S k) 0 [] st Hs) as Hloop.
  cbn [fetch_loop] in Hloop. rewrite Z.add_0_l, Hbad in Hloop.
  unfold date_range_body, load_or_fetch. rewrite Hmiss, Hloop.
  eexists. split; [reflexivity|].
  unfold except_date_range, print, send. cbn [files requests console].
  split; [apply files_paged|].
  split.
  - pose proof (fetch_loop_same_results _ _ _ _ _ _ _ _ Hloop) as (H1 & H2 & H3 & H4).
    repeat split; simpl in *; assumption.
  - split; [|eexists; reflexivity].
    rewrite requests_paged, offsets_snoc, map_app, <- app_assoc. reflexivity.
Qed.

Lemma unusable_body_drops_window_witness :
  exists st',
    date_range_body 1 null_result_source [highfive_area] april_2022 (initial ∅)
      = Some st' /\
    files st' = ∅ /\
    all_stats_sections st' = [].
Proof.
  destruct (unusable_body_drops_window 1 null_result_source [highfive_area]
              april_2022 [] AttributeError (initial ∅))
    as (st' & H1 & H2 & (_ & _ & H3 & _) & _).
  - reflexivity.
  - intros i page H. discriminate.
  - reflexivity.
  - simpl. lia.
  - exists st'. split; [exact H1|]. split; [exact H2 | symmetry; exact H3].
Defined.

(** X7.  Of the files of records in the output folder, a run creates a
    cache file only where none was and only for a window it processes,
    never changes or removes a cache file that exists, and writes nothing
    else but extracts, created or overwritten, at the paths of its areas
    and windows.  (The workbook, which every run writes anew, is no file
    of records.) *)
Theorem run_writes_missing_cache_files_and_extracts (fuel : nat) (remote : Remote)
    (areas : list Area) (date_ranges : list DateWindow) :
  forall (st st' : State),
    date_ranges_loop fuel remote areas date_ranges st = Some st' ->
    (forall path,
       files st' !! path = files st !! path \/
       (files st !! path = None /\
        exists w, w ∈ date_ranges /\ path = cache_file_path w) \/
       (exists area w, area ∈ areas /\ w ∈ date_ranges /\
          path = csv_file_path (location_name area) w)) /\
    (forall w0 content,
       files st !! cache_file_path w0 = Some content ->
       files st' !! cache_file_path w0 = Some content).
Proof.
  intros st st' Hrun. split;
    [|intros w0 content Hp; exact (date_ranges_loop_keeps _ _ _ _ _ _ _ _ Hp Hrun)].
  revert st st' Hrun.
  induction date_ranges as [|w ws IH]; intros st st' H path.
  - injection H as <-. left. reflexivity.
  - cbn [date_ranges_loop] in H.
    destruct (date_range_body fuel remote areas w st) as [st1|] eqn:Hbody;
      [|discriminate].
    assert (files st1 !! path = files st !! path \/
            (files st !! path = None /\ path = cache_file_path w) \/
            (exists area, area ∈ areas /\
               path = csv_file_path (location_name area) w)) as Hstep.
    { unfold date_range_body, load_or_fetch in Hbody.
      destruct (files st !! cache_file_path w) as [cached|] eqn:Hc.
      - injection Hbody as <-.
        destruct (process_records_io areas w cached
                    (print (LoadingCache (cache_file_path w)) st)) as [Hf _].
        destruct (Hf path) as [Hsame|Hcsv]; [left; exact Hsame | auto].
      - destruct (fetch_loop fuel remote w 0 [] st) as [[[e|recs] st0]|] eqn:Hf;
          [| |discriminate]; injection Hbody as <-.
        + left. simpl. now rewrite (fetch_loop_files _ _ _ _ _ _ _ _ Hf).
        + destruct (process_records_io areas w recs
                      (print (DataCached (cache_file_path w))
                             (json_dump (cache_file_path w) recs st0))) as [Hio _].
          destruct (Hio path) as [Hsame|Hcsv]; [|auto].
          rewrite Hsame. simpl. rewrite (fetch_loop_files _ _ _ _ _ _ _ _ Hf).
          destruct (decide (cache_file_path w = path)) as [<-|Hne].
          * right. left. auto.
          * left. apply lookup_insert_ne. exact Hne. }
    assert (w ∈ w :: ws) as Hw by apply list_elem_of_here.
    destruct (IH st1 st' H path)
      as [Hsame|[(Hnone & w' & Hw' & Hpath)|(area & w' & Ha & Hw' & Hpath)]].
    + destruct Hstep as [Hstep|[[Hnone Hpath]|(area & Ha & Hpath)]].
      * left. congruence.
      * right. left. split; [exact Hnone|]. exists w. auto.
      * right. right. exists area, w. auto.
    + destruct Hstep as [Hstep|[[Hnone' Hpath']|(area & Ha & Hpath')]].
      * right. left. split; [congruence|]. exists w'.
        split; [now apply list_elem_of_further | exact Hpath].
      * right. left. split; [exact Hnone'|]. exists w. auto.
      * right. right. exists area, w. auto.
    + right. right. exists area, w'.
      split; [exact Ha|]. split; [now apply list_elem_of_further | exact Hpath].
Qed.

Lemma run_writes_missing_cache_files_and_extracts_witness :
  exists st',
    date_ranges_loop 2 source_2022 [highfive_area] [april_2022; april_2023]
      (initial keyless_cache) = Some st' /\
    files st' !! cache_file_path april_2023 = Some [keyless_reading].
Proof.
  destruct (returned
              (date_ranges_loop 2 source_2022 [highfive_area]
                 [april_2022; april_2023] (initial keyless_cache))
              (fun _ => True)) as (st' & H & _); [vm_compute; exact I|].
  exists st'. split; [exact H|].
  destruct (run_writes_missing_cache_files_and_extracts 2 source_2022
              [highfive_area] [april_2022; april_2023] (initial keyless_cache)
              st' H) as [_ Hkeep].
  apply Hkeep. reflexivity.
Defined.

(** ** Running the script again *)

(** What an area does to the variables and outputs depends on the
    variables and outputs alone. *)
Lemma location_body_same_results (w : DateWindow) (gdf : DataFrame) (area : Area)
    (st1 st2 : State) :
  same_results st1 st2 ->
  (location_body w gdf area st1).1 = (location_body w gdf area st2).1 /\
  same_results (location_body w gdf area st1).2 (location_body w gdf area st2).2.
Proof.
  destruct st1 as [f1 r1 c1 d1 o1 s1 x1], st2 as [f2 r2 c2 d2 o2 s2 x2].
  unfold same_results. simpl. intros (-> & -> & -> & ->).
  unfold location_body, daily_block, overall_block, save_block.
  destruct (read_file area) as [| |polygon]; [simpl; auto | simpl; auto |].
  destruct (empty (within gdf polygon)); [simpl; auto|].
  destruct (compute_daily_stats (within gdf polygon) (start_day w) (end_day w));
    destruct (compute_overall_stats (within gdf polygon)); simpl;
    try destruct d2; try destruct o2; simpl;
    destruct (has_pm2_5 gdf); simpl; auto.
Qed.

Lemma locations_loop_same_results (w : DateWindow) (gdf : DataFrame)
    (areas : list Area) :
  forall st1 st2 : State,
    same_results st1 st2 ->
    (locations_loop w gdf areas st1).1 = (locations_loop w gdf areas st2).1 /\
    same_results (locations_loop w gdf areas st1).2 (locations_loop w gdf areas st2).2.
Proof.
  induction areas as [|area areas IH]; intros st1 st2 H; [simpl; auto|].
  cbn [locations_loop].
  destruct (location_body_same_results w gdf area st1 st2 H) as [He Hs].
  destruct (location_body w gdf area st1) as [[e1|] st1'],
           (location_body w gdf area st2) as [[e2|] st2']; simpl in *;
    try discriminate; auto.
Qed.

Lemma process_records_same_results (areas : list Area) (w : DateWindow)
    (all_records : list RawRecord) (st1 st2 : State) :
  same_results st1 st2 ->
  same_results (except_date_range w (process_records areas w all_records st1))
               (except_date_range w (process_records areas w all_records st2)).
Proof.
  intros H. unfold process_records.
  destruct (empty (normalize all_records)).
  - destruct H as (H1 & H2 & H3 & H4). repeat split; simpl; assumption.
  - destruct (locations_loop_same_results w (normalize all_records) areas st1 st2 H)
      as [He Hs].
    destruct (locations_loop w (normalize all_records) areas st1) as [[e1|] st1'],
             (locations_loop w (normalize all_records) areas st2) as [[e2|] st2'];
      simpl in *; try discriminate; [|exact Hs].
    destruct Hs as (H1 & H2 & H3 & H4). repeat split; simpl; assumption.
Qed.

(** One window of a first run, and the same window of a later run that
    finds the first run's cache files. *)
Lemma date_range_body_again (fuel fuel' : nat) (remote remote' : Remote)
    (areas : list Area) (w : DateWindow) (st st1 st2 : State) :
  (forall q, remote q <> InvalidJSON) ->
  (forall q e, remote q <> Malformed e) ->
  date_range_body fuel remote areas w st = Some st1 ->
  same_results st st2 ->
  (forall w0 content,
     files st1 !! cache_file_path w0 = Some content ->
     files st2 !! cache_file_path w0 = Some content) ->
  exists st2',
    date_range_body fuel' remote' areas w st2 = Some st2' /\
    same_results st1 st2' /\
    requests st2' = requests st2 /\
    (forall w0, files st2' !! cache_file_path w0 = files st2 !! cache_file_path w0).
Proof.
  intros Hjson Hbody_ok Hbody Hsame Hfiles.
  assert (exists all_records st0,
            st1 = except_date_range w (process_records areas w all_records st0) /\
            same_results st st0 /\
            files st0 !! cache_file_path w = Some all_records)
    as (all_records & st0 & -> & Hsame0 & Hcached).
  { unfold date_range_body, load_or_fetch in Hbody.
    destruct (files st !! cache_file_path w) as [cached|] eqn:Hc.
    - injection Hbody as <-. eexists. eexists. split; [reflexivity|].
      split; [repeat split | exact Hc].
    - destruct (fetch_loop fuel remote w 0 [] st) as [[[e|recs] st0]|] eqn:Hf;
        [| |discriminate].
      + exfalso. destruct (fetch_loop_raises _ _ _ _ _ _ _ _ Hf) as [q [Hq|Hq]].
        * exact (Hjson _ Hq).
        * exact (Hbody_ok _ _ Hq).
      + injection Hbody as <-. eexists. eexists. split; [reflexivity|].
        destruct (fetch_loop_same_results _ _ _ _ _ _ _ _ Hf) as (H1 & H2 & H3 & H4).
        split; [repeat split; simpl; assumption|].
        simpl. apply lookup_insert_eq. }
  assert (files st2 !! cache_file_path w = Some all_records) as Hhit.
  { apply Hfiles. rewrite process_records_cache. exact Hcached. }
  unfold date_range_body. rewrite (load_or_fetch_hit _ _ _ _ _ Hhit).
  eexists. split; [reflexivity|].
  destruct (process_records_io areas w all_records
              (print (LoadingCache (cache_file_path w)) st2)) as [_ Hr].
  split; [|split; [exact Hr | intros w0; rewrite process_records_cache; reflexivity]].
  apply process_records_same_results.
  apply (same_results_trans _ st); [apply same_results_sym; exact Hsame0|].
  destruct Hsame as (H1 & H2 & H3 & H4). repeat split; simpl; assumption.
Qed.

Lemma date_ranges_loop_again (fuel fuel' : nat) (remote remote' : Remote)
    (areas : list Area) (date_ranges : list DateWindow) :
  (forall q, remote q <> InvalidJSON) ->
  (forall q e, remote q <> Malformed e) ->
  forall st st_end st2 : State,
    date_ranges_loop fuel remote areas date_ranges st = Some st_end ->
    same_results st st2 ->
    (forall w0 content,
       files st_end !! cache_file_path w0 = Some content ->
       files st2 !! cache_file_path w0 = Some content) ->
    exists st2_end,
      date_ranges_loop fuel' remote' areas date_ranges st2 = Some st2_end /\
      same_results st_end st2_end /\
      requests st2_end = requests st2 /\
      (forall w0,
         files st2_end !! cache_file_path w0 = files st2 !! cache_file_path w0).
Proof.
  intros Hjson Hbody_ok. induction date_ranges as [|w ws IH];
    intros st st_end st2 Hrun Hsame Hfiles.
  - injection Hrun as <-. exists st2. auto.
  - cbn [date_ranges_loop] in Hrun.
    destruct (date_range_body fuel remote areas w st) as [st1|] eqn:Hbody;
      [|discriminate].
    destruct (date_range_body_again fuel fuel' remote remote' areas w st st1 st2
                Hjson Hbody_ok Hbody Hsame) as (st2' & Hbody' & Hsame' & Hreq & Hf).
    { intros w0 content Hp. apply Hfiles.
      exact (date_ranges_loop_keeps _ _ _ _ _ _ _ _ Hp Hrun). }
    destruct (IH st1 st_end st2' Hrun Hsame') as (st2_end & Hrun' & Hs & Hr & Hf').
    { intros w0 content Hp. rewrite Hf. exact (Hfiles w0 content Hp). }
    exists st2_end. cbn [date_ranges_loop]. rewrite Hbody'.
    split; [exact Hrun'|]. split; [exact Hs|]. split; [congruence|].
    intros w0. rewrite Hf'. apply Hf.
Qed.

(** X8.  After a run in which every body could be decoded and used,
    running the script again on the files it left, with the same windows
    and areas, sends no request and leaves every cache file as it is,
    whatever the source would answer by then; it files the same summary
    list, writes the same extracts with the same content over the old
    ones, and fills the summary sheet with the same cells. *)
Theorem rerun_repeats_from_cache (fuel fuel' : nat) (remote remote' : Remote)
    (areas : list Area) (date_ranges : list DateWindow)
    (fs : gmap string (list RawRecord)) (st : State) :
  (forall q, remote q <> InvalidJSON) ->
  (forall q e, remote q <> Malformed e) ->
  run fuel remote areas date_ranges fs = Some st ->
  exists st2,
    run fuel' remote' areas date_ranges (files st) = Some st2 /\
    requests st2 = [] /\
    (forall w0, files st2 !! cache_file_path w0 = files st !! cache_file_path w0) /\
    all_stats_sections st2 = all_stats_sections st /\
    csv_files st2 = csv_files st /\
    summary_sheet st2 = summary_sheet st.
Proof.
  intros Hjson Hbody_ok Hrun. unfold run in *.
  destruct (date_ranges_loop_again fuel fuel' remote remote' areas date_ranges
              Hjson Hbody_ok (initial fs) st (initial (files st)) Hrun)
    as (st2 & Hrun2 & (_ & _ & H3 & H4) & Hreq & Hf).
  - repeat split.
  - auto.
  - exists st2. split; [exact Hrun2|]. split; [exact Hreq|].
    split; [exact Hf|]. split; [congruence|]. split; [congruence|].
    unfold summary_sheet. rewrite H3. reflexivity.
Qed.

Lemma rerun_repeats_from_cache_witness :
  exists st st2,
    run 2 source_2022 [highfive_area] [april_2022; april_2023] keyless_cache
      = Some st /\
    run 0 empty_source [highfive_area] [april_2022; april_2023] (files st)
      = Some st2 /\
    all_stats_sections st2 = all_stats_sections st /\
    requests st2 = [].
Proof.
  destruct (returned
              (run 2 source_2022 [highfive_area] [april_2022; april_2023]
                 keyless_cache)
              (fun _ => True)) as (st & Hrun & _); [vm_compute; exact I|].
  destruct (rerun_repeats_from_cache 2 0 source_2022 empty_source
              [highfive_area] [april_2022; april_2023] keyless_cache st)
    as (st2 & H1 & H2 & _ & H3 & _).
  - intros q. unfold source_2022. destruct (_ && _); discriminate.
  - intros q e. unfold source_2022. destruct (_ && _); discriminate.
  - exact Hrun.
  - exists st, st2. split; [exact Hrun|]. split; [exact H1|].
    split; [exact H3 | exact H2].
Defined.

(** ** The loops over areas and windows *)

(** X9.  The areas are not all shielded from one another.  An area whose
    file cannot be read is passed over with a message and the loop goes on
    with the next area.  An area whose file holds no geometry makes line
    158 raise outside every inner handler: the exception leaves the loop
    over the areas, and the areas that come after it in the window are
    never looked at, whatever they contain. *)
Theorem area_without_geometry_ends_window (w : DateWindow) (gdf : DataFrame)
    (before after : list Area) (area : Area) (st st1 : State) :
  locations_loop w gdf before st = (None, st1) ->
  (read_file area = Unreadable ->
   locations_loop w gdf (before ++ area :: after) st =
   locations_loop w gdf after
     (print (ErrorReadingGeoJSON (location_name area)) st1)) /\
  (read_file area = NoGeometry ->
   locations_loop w gdf (before ++ area :: after) st = (Some (KeyError "0"), st1)).
Proof.
  revert st. induction before as [|a before IH]; intros st Hbefore.
  - injection Hbefore as ->. cbn [app locations_loop]. unfold location_body.
    split; intros ->; reflexivity.
  - cbn [app locations_loop] in *.
    destruct (location_body w gdf a st) as [[e|] st']; [discriminate|].
    exact (IH st' Hbefore).
Qed.

Lemma area_without_geometry_ends_window_witness :
  locations_loop april_2022 (normalize three_readings)
    [unreadable_area; featureless_area; highfive_area] (initial ∅) =
  (Some (KeyError "0"),
   print (ErrorReadingGeoJSON "unreadable_area") (initial ∅)).
Proof.
  apply (area_without_geometry_ends_window april_2022 (normalize three_readings)
           [unreadable_area] [highfive_area] featureless_area (initial ∅)).
  - reflexivity.
  - reflexivity.
Defined.

(** ** Tables on the summary list *)

Lemma length_insert_sorted (x : Q) (vs : list Q) :
  length (insert_sorted x vs) = S (length vs).
Proof.
  induction vs as [|y vs IH]; [reflexivity|].
  simpl. destruct (Qle_bool x y); simpl; [|rewrite IH]; reflexivity.
Qed.

Lemma length_sort_values (vs : list Q) : length (sort_values vs) = length vs.
Proof.
  induction vs as [|x vs IH]; [reflexivity|].
  simpl. rewrite length_insert_sorted, IH. reflexivity.
Qed.

Lemma mean_is_Some (vs : list Q) : vs <> [] -> is_Some (mean vs).
Proof. destruct vs; [congruence|]. intros _. simpl. eauto. Qed.

Lemma median_is_Some (vs : list Q) : vs <> [] -> is_Some (median vs).
Proof.
  intros H. unfold median. rewrite length_sort_values.
  destruct vs as [|v vs]; [congruence|]. cbn [length].
  destruct (Nat.even (S (length vs))); eauto.
Qed.

Lemma compute_daily_stats_is_daily_table (gdf : DataFrame) (start_day end_day : Z)
    (daily : StatsTable) :
  compute_daily_stats gdf start_day end_day = inr daily -> is_daily_table daily.
Proof.
  unfold compute_daily_stats. destruct (has_pm2_5 gdf); [|discriminate].
  intros [= <-]. unfold is_daily_table. apply Forall_forall. intros row Hrow.
  apply list_elem_of_fmap in Hrow as (r & -> & _).
  unfold daily_row. simpl. split; [eauto|].
  split; [destruct (present r.1.2) | destruct (present r.2)]; discriminate.
Qed.

Lemma compute_overall_stats_is_overall_table (gdf : DataFrame) (overall : StatsTable) :
  no_nan gdf -> empty gdf = false ->
  compute_overall_stats gdf = inr overall -> is_overall_table overall.
Proof.
  intros Hnan Hne. unfold compute_overall_stats.
  destruct (has_pm2_5 gdf) eqn:Hcol; [|discriminate]. intros [= <-].
  assert (pm2_5_values (rows gdf) <> []) as Hvs.
  { unfold empty in Hne. destruct (rows gdf) as [|r rs] eqn:E; [discriminate|].
    destruct (Hnan Hcol r) as [v Hv]; [rewrite E; apply list_elem_of_here|].
    unfold pm2_5_values. cbn [omap list_omap]. rewrite Hv. discriminate. }
  destruct (mean_is_Some _ Hvs) as [a ->], (median_is_Some _ Hvs) as [m ->].
  simpl. unfold is_overall_table. eauto.
Qed.

Lemma no_nan_normalize (all_records : list RawRecord) : no_nan (normalize all_records).
Proof.
  intros Hcol r Hr. rewrite has_pm2_5_normalize in Hcol.
  rewrite rows_normalize in Hr. apply list_elem_of_fmap in Hr as (r0 & -> & Hr0).
  destruct (scale_row_other_fields r0) as (_ & _ & _ & _ & _ & ->).
  destruct (range_filter_has_value _ _ Hcol Hr0) as [v ->]. simpl. eauto.
Qed.

Lemma no_nan_within (gdf : DataFrame) (polygon : Polygon) :
  no_nan gdf -> no_nan (within gdf polygon).
Proof.
  intros H Hcol r Hr. apply (H Hcol). exact (within_incl _ _ _ Hr).
Qed.

Lemma location_body_tables_ok (w : DateWindow) (gdf : DataFrame) (area : Area)
    (st : State) :
  no_nan gdf -> tables_ok st -> tables_ok (location_body w gdf area st).2.
Proof.
  intros Hnan (Hd & Ho & Hs). unfold location_body.
  destruct (read_file area) as [| |polygon];
    [repeat split; assumption | repeat split; assumption |].
  destruct (empty (within gdf polygon)) eqn:Hne; [repeat split; assumption|].
  pose proof (compute_daily_stats_is_daily_table (within gdf polygon)
                (start_day w) (end_day w)) as Hdaily.
  assert (forall overall,
            compute_overall_stats (within gdf polygon) = inr overall ->
            is_overall_table overall) as Hoverall.
  { intros overall. apply compute_overall_stats_is_overall_table;
      [exact (no_nan_within gdf polygon Hnan) | exact Hne]. }
  unfold daily_block, overall_block, save_block.
  destruct (compute_daily_stats (within gdf polygon) (start_day w) (end_day w))
    as [e1|daily];
    destruct (compute_overall_stats (within gdf polygon)) as [e2|overall];
    destruct st as [f r c [d|] [o|] s x]; simpl in *;
    destruct (has_pm2_5 gdf); simpl;
    repeat split; simpl; try assumption;
    try (intros ? [= <-]; eauto);
    try (apply Forall_app; split; [assumption|];
         apply Forall_cons; split; [|constructor];
         eexists; eexists; split; [reflexivity|]; split; eauto).
Qed.

Lemma locations_loop_tables_ok (w : DateWindow) (gdf : DataFrame) (areas : list Area) :
  no_nan gdf ->
  forall st : State, tables_ok st -> tables_ok (locations_loop w gdf areas st).2.
Proof.
  intros Hnan. induction areas as [|area areas IH]; intros st Hok; [exact Hok|].
  cbn [locations_loop].
  pose proof (location_body_tables_ok w gdf area st Hnan Hok) as H1.
  destruct (location_body w gdf area st) as [[e|] st1]; [exact H1|].
  apply IH. exact H1.
Qed.

Lemma tables_ok_same_results (st1 st2 : State) :
  same_results st1 st2 -> tables_ok st1 -> tables_ok st2.
Proof.
  intros (H1 & H2 & H3 & _) (Hd & Ho & Hs). unfold tables_ok.
  rewrite <- H1, <- H2, <- H3. auto.
Qed.

Lemma labels_ok_same_results (areas : list Area) (date_ranges : list DateWindow)
    (st1 st2 : State) :
  same_results st1 st2 -> labels_ok areas date_ranges st1 ->
  labels_ok areas date_ranges st2.
Proof.
  intros (_ & _ & H3 & H4) (Hs & Hx). unfold labels_ok.
  rewrite <- H3, <- H4. auto.
Qed.

(** A window ends either in its handler right after the fetch, or in the
    handler after its records were processed; the fetch itself leaves the
    variables and outputs alone. *)
Lemma date_range_body_shape (fuel : nat) (remote : Remote) (areas : list Area)
    (w : DateWindow) (st st1 : State) :
  date_range_body fuel remote areas w st = Some st1 ->
  exists st0,
    same_results st st0 /\
    ((exists e, st1 = print (ErrorDateRange (start_date w) (end_date w) e) st0) \/
     exists all_records,
       st1 = except_date_range w (process_records areas w all_records st0)).
Proof.
  unfold date_range_body, load_or_fetch. intros H.
  destruct (files st !! cache_file_path w) as [cached|].
  - injection H as <-. eexists. split; [|right; eexists; reflexivity].
    repeat split.
  - destruct (fetch_loop fuel remote w 0 [] st) as [[[e|recs] st0]|] eqn:Hf;
      [| |discriminate]; injection H as <-;
      pose proof (fetch_loop_same_results _ _ _ _ _ _ _ _ Hf) as Hsame.
    + exists st0. split; [exact Hsame | left; eexists; reflexivity].
    + eexists. split; [|right; eexists; reflexivity].
      destruct Hsame as (H1 & H2 & H3 & H4). repeat split; simpl; assumption.
Qed.

Lemma process_records_tables_ok (areas : list Area) (w : DateWindow)
    (all_records : list RawRecord) (st : State) :
  tables_ok st ->
  tables_ok (except_date_range w (process_records areas w all_records st)).
Proof.
  intros Hok. unfold process_records.
  destruct (empty (normalize all_records)); [exact Hok|].
  pose proof (locations_loop_tables_ok w (normalize all_records) areas
                (no_nan_normalize all_records) st Hok) as H.
  destruct (locations_loop w (normalize all_records) areas st) as [[e|] st'];
    exact H.
Qed.

(** X10.  Every table on the summary list of a finished run is a run of
    dated rows followed by exactly one row dated "Overall".  The cells of
    the Overall row are numbers; the cells of the dated rows are numbers or
    the missing marker; NaN never reaches the list.  This holds also for a
    table that was filed under the label of another window. *)
Theorem summary_tables_are_well_formed (fuel : nat) (remote : Remote)
    (areas : list Area) (date_ranges : list DateWindow)
    (fs : gmap string (list RawRecord)) (st : State) :
  run fuel remote areas date_ranges fs = Some st ->
  Forall (fun s => is_stats_table s.2) (all_stats_sections st).
Proof.
  unfold run. intros Hrun.
  assert (tables_ok (initial fs)) as Hinit.
  { split; [discriminate|]. split; [discriminate | constructor]. }
  revert Hrun Hinit. generalize (initial fs).
  induction date_ranges as [|w ws IH]; intros st0 Hrun Hok.
  - injection Hrun as <-. apply Hok.
  - cbn [date_ranges_loop] in Hrun.
    destruct (date_range_body fuel remote areas w st0) as [st1|] eqn:Hbody;
      [|discriminate].
    apply (IH st1 Hrun).
    destruct (date_range_body_shape _ _ _ _ _ _ Hbody)
      as (st0' & Hsame & [[e ->]|[recs ->]]).
    + exact (tables_ok_same_results _ _ Hsame Hok).
    + apply process_records_tables_ok.
      exact (tables_ok_same_results _ _ Hsame Hok).
Qed.

Lemma summary_tables_are_well_formed_witness :
  exists st,
    run 2 source_2022 [highfive_area] [april_2022; april_2023] keyless_cache
      = Some st /\
    Forall (fun s => is_stats_table s.2) (all_stats_sections st).
Proof.
  destruct (returned
              (run 2 source_2022 [highfive_area] [april_2022; april_2023]
                 keyless_cache)
              (fun _ => True)) as (st & Hrun & _); [vm_compute; exact I|].
  exists st. split; [exact Hrun|].
  exact (summary_tables_are_well_formed _ _ _ _ _ _ Hrun).
Defined.

(** *** Labels *)

Lemma location_body_labels_ok (areas : list Area) (date_ranges : list DateWindow)
    (w : DateWindow) (gdf : DataFrame) (area : Area) (st : State) :
  area ∈ areas -> w ∈ date_ranges ->
  labels_ok areas date_ranges st ->
  labels_ok areas date_ranges (location_body w gdf area st).2 /\
  (length (all_stats_sections (location_body w gdf area st).2)
     <= S (length (all_stats_sections st)))%nat.
Proof.
  intros Ha Hw (Hs & Hx). unfold location_body.
  destruct (read_file area) as [| |polygon];
    [split; [split; assumption | simpl; lia]
    |split; [split; assumption | simpl; lia]|].
  destruct (empty (within gdf polygon));
    [split; [split; assumption | simpl; lia]|].
  unfold daily_block, overall_block, save_block.
  destruct (compute_daily_stats (within gdf polygon) (start_day w) (end_day w));
    destruct (compute_overall_stats (within gdf polygon));
    destruct st as [f0 r0 c0 [d0|] [o0|] secs x0]; simpl in *;
    destruct (has_pm2_5 gdf); simpl;
    (split; [split|]); simpl; try assumption; try lia;
    try (rewrite length_app; simpl; lia);
    try (apply Forall_app; split; [assumption|];
         apply Forall_cons; split; [|constructor];
         exists area, w; auto).
Qed.

Lemma locations_loop_labels_ok (areas : list Area) (date_ranges : list DateWindow)
    (w : DateWindow) (gdf : DataFrame) (visited : list Area) :
  (forall area, area ∈ visited -> area ∈ areas) -> w ∈ date_ranges ->
  forall st : State,
    labels_ok areas date_ranges st ->
    labels_ok areas date_ranges (locations_loop w gdf visited st).2 /\
    (length (all_stats_sections (locations_loop w gdf visited st).2)
       <= length (all_stats_sections st) + length visited)%nat.
Proof.
  intros Hsub Hw. induction visited as [|area visited IH]; intros st Hok.
  - simpl. split; [exact Hok | lia].
  - cbn [locations_loop].
    destruct (location_body_labels_ok areas date_ranges w gdf area st)
      as [H1 H2]; [apply Hsub, list_elem_of_here | exact Hw | exact Hok |].
    destruct (location_body w gdf area st) as [[e|] st1]; simpl in *.
    + split; [exact H1 | lia].
    + destruct (IH (fun a Ha => Hsub a (list_elem_of_further _ _ _ Ha)) st1 H1)
        as [H3 H4].
      split; [exact H3 | lia].
Qed.

Lemma date_range_body_labels_ok (fuel : nat) (remote : Remote) (areas : list Area)
    (date_ranges : list DateWindow) (w : DateWindow) (st st1 : State) :
  w ∈ date_ranges ->
  labels_ok areas date_ranges st ->
  date_range_body fuel remote areas w st = Some st1 ->
  labels_ok areas date_ranges st1 /\
  (length (all_stats_sections st1)
     <= length (all_stats_sections st) + length areas)%nat.
Proof.
  intros Hw Hok Hbody.
  destruct (date_range_body_shape _ _ _ _ _ _ Hbody)
    as (st0 & Hsame & [[e ->]|[recs ->]]).
  - split; [exact (labels_ok_same_results _ _ _ _ Hsame Hok)|].
    destruct Hsame as (_ & _ & -> & _). simpl. lia.
  - pose proof (labels_ok_same_results _ _ _ _ Hsame Hok) as Hok0.
    destruct Hsame as (_ & _ & -> & _).
    unfold process_records. destruct (empty (normalize recs)).
    + split; [exact Hok0 | simpl; lia].
    + destruct (locations_loop_labels_ok areas date_ranges w (normalize recs)
                  areas (fun a Ha => Ha) Hw st0 Hok0) as [H1 H2].
      destruct (locations_loop w (normalize recs) areas st0) as [[e|] st'];
        simpl in *; split; assumption.
Qed.

(** X11.  The summary list of a finished run has at most one entry per
    window and area, every label on it is the label of a configured area
    and window, and every extract was written to the path of a configured
    area and window. *)
Theorem summary_labels_are_configured (fuel : nat) (remote : Remote)
    (areas : list Area) (date_ranges : list DateWindow)
    (fs : gmap string (list RawRecord)) (st : State) :
  run fuel remote areas date_ranges fs = Some st ->
  labels_ok areas date_ranges st /\
  (length (all_stats_sections st) <= length date_ranges * length areas)%nat.
Proof.
  unfold run. intros Hrun.
  assert (forall visited st0 st',
            (forall w, w ∈ visited -> w ∈ date_ranges) ->
            labels_ok areas date_ranges st0 ->
            date_ranges_loop fuel remote areas visited st0 = Some st' ->
            labels_ok areas date_ranges st' /\
            (length (all_stats_sections st')
               <= length (all_stats_sections st0) + length visited * length areas)%nat)
    as Hloop.
  { induction visited as [|w ws IH]; intros st0 st' Hsub Hok H.
    - injection H as <-. split; [exact Hok | lia].
    - cbn [date_ranges_loop] in H.
      destruct (date_range_body fuel remote areas w st0) as [st1|] eqn:Hbody;
        [|discriminate].
      destruct (date_range_body_labels_ok _ _ _ date_ranges _ _ _
                  (Hsub w (list_elem_of_here _ _)) Hok Hbody) as [H1 H2].
      destruct (IH st1 st' (fun w' Hw' => Hsub w' (list_elem_of_further _ _ _ Hw'))
                  H1 H) as [H3 H4].
      split; [exact H3 | simpl; lia]. }
  destruct (Hloop date_ranges (initial fs) st (fun w Hw => Hw)) as [H1 H2];
    [split; constructor | exact Hrun |].
  split; [exact H1 | simpl in H2; lia].
Qed.

Lemma summary_labels_are_configured_witness :
  exists st,
    run 2 source_2022 [highfive_area] [april_2022; april_2023] keyless_cache
      = Some st /\
    (length (all_stats_sections st) <= 2 * 1)%nat.
Proof.
  destruct (returned
              (run 2 source_2022 [highfive_area] [april_2022; april_2023]
                 keyless_cache)
              (fun _ => True)) as (st & Hrun & _); [vm_compute; exact I|].
  exists st. split; [exact Hrun|].
  exact (proj2 (summary_labels_are_configured _ _ _ _ _ _ Hrun)).
Defined.

(** ** More on normalization *)

Lemma has_pm2_5_mk_DataFrame (all_records : list RawRecord) :
  has_pm2_5 (mk_DataFrame all_records) = true <->
  exists r, r ∈ all_records /\ pm2_5 r <> Absent.
Proof.
  simpl. rewrite existsb_exists. split.
  - intros (r & Hr & Hk). exists r. split; [now apply list_elem_of_In|].
    intros E. rewrite E in Hk. discriminate.
  - intros (r & Hr & Hk). exists r. split; [now apply list_elem_of_In|].
    destruct (pm2_5 r); [contradiction | reflexivity | reflexivity].
Qed.

Lemma rows_normalize_with_key (all_records : list RawRecord) :
  (exists r, r ∈ all_records /\ pm2_5 r <> Absent) ->
  rows (normalize all_records) =
  map scale_row (filter (fun r => in_range r = true) all_records).
Proof.
  intros H. rewrite rows_normalize, rows_range_filter.
  apply has_pm2_5_mk_DataFrame in H. rewrite H. reflexivity.
Qed.

(** X12.  When at least one record has the pm2_5 key, normalization keeps
    exactly the records whose pm2_5 lies in (0, 10000], in their order, and
    passes each through the scale block; records with a null or absent
    pm2_5 are dropped with the out-of-range ones.  When no record has the
    key, the filter and the scale block are both skipped and every record
    comes through untouched. *)
Theorem normalize_rows (all_records : list RawRecord) :
  ((exists r, r ∈ all_records /\ pm2_5 r <> Absent) ->
   rows (normalize all_records) =
   map scale_row (filter (fun r => in_range r = true) all_records)) /\
  ((forall r, r ∈ all_records -> pm2_5 r = Absent) ->
   rows (normalize all_records) = all_records).
Proof.
  rewrite rows_normalize, rows_range_filter. split.
  - intros H. apply has_pm2_5_mk_DataFrame in H. rewrite H. reflexivity.
  - intros H.
    assert (has_pm2_5 (mk_DataFrame all_records) = false) as ->.
    { destruct (has_pm2_5 (mk_DataFrame all_records)) eqn:E; [|reflexivity].
      apply has_pm2_5_mk_DataFrame in E as (r & Hr & Hk).
      exfalso. exact (Hk (H r Hr)). }
    simpl. apply map_scale_row_id. intros r Hr.
    unfold scale_row. rewrite (H r Hr). destruct (is_version_1 r); reflexivity.
Qed.

Lemma normalize_rows_witness :
  rows (normalize [legacy_reading; current_reading]) =
    map scale_row
        (filter (fun r => in_range r = true) [legacy_reading; current_reading]) /\
  rows (normalize [keyless_reading]) = [keyless_reading].
Proof.
  split.
  - apply (proj1 (normalize_rows [legacy_reading; current_reading])).
    exists legacy_reading. split; [apply list_elem_of_here | discriminate].
  - apply (proj2 (normalize_rows [keyless_reading])).
    intros r Hr. apply list_elem_of_singleton in Hr as ->. reflexivity.
Defined.

(** X13.  A window none of whose records has a pm2_5 in (0, 10000], while
    some record has the key, is treated like a window without records: the
    script prints that it found no data and looks at no area, so nothing
    reaches the summary list or the extracts. *)
Theorem window_without_valid_records (areas : list Area) (w : DateWindow)
    (all_records : list RawRecord) (st : State) :
  (all_records = [] \/ exists r, r ∈ all_records /\ pm2_5 r <> Absent) ->
  (forall r, r ∈ all_records -> in_range r = false) ->
  process_records areas w all_records st =
  (None, print (NoDataFound (start_date w) (end_date w)) st).
Proof.
  intros Hkey Hbad. unfold process_records.
  assert (rows (normalize all_records) = []) as Hrows.
  { destruct Hkey as [->|Hkey]; [reflexivity|].
    rewrite (rows_normalize_with_key all_records Hkey).
    replace (filter (fun r => in_range r = true) all_records) with (@nil RawRecord);
      [reflexivity|].
    symmetry. clear Hkey. induction all_records as [|r rs IH]; [reflexivity|].
    rewrite filter_cons_False.
    - apply IH. intros r' Hr'. apply Hbad. now apply list_elem_of_further.
    - rewrite (Hbad r (list_elem_of_here _ _)). discriminate. }
  unfold empty. rewrite Hrows. reflexivity.
Qed.

Lemma window_without_valid_records_witness :
  process_records [highfive_area] april_2022 invalid_readings (initial ∅) =
  (None, print (NoDataFound "2022-04-01" "2022-04-03") (initial ∅)).
Proof.
  apply (window_without_valid_records [highfive_area] april_2022
           invalid_readings (initial ∅)).
  - right. exists (reading 1648807200 0).
    split; [apply list_elem_of_here | discriminate].
  - intros r Hr. unfold invalid_readings in Hr.
    apply elem_of_cons in Hr as [->|Hr]; [reflexivity|].
    apply list_elem_of_singleton in Hr as ->. reflexivity.
Defined.

(** ** The summary sheet *)

Lemma lookup_write (row col row' col' : nat) (value : xl_cell)
    (worksheet : gmap (nat * nat) xl_cell) :
  write row col value worksheet !! (row', col') =
  if decide (row = row' /\ col = col') then Some value else worksheet !! (row', col').
Proof.
  unfold write. rewrite lookup_insert.
  destruct (decide ((row, col) = (row', col'))) as [E|E],
           (decide (row = row' /\ col = col')) as [E'|E']; try reflexivity.
  - exfalso. apply E'. now injection E.
  - exfalso. apply E. destruct E' as [-> ->]. reflexivity.
Qed.

Lemma lookup_write_data_row (row row' col' : nat) (data_row : StatsRow)
    (worksheet : gmap (nat * nat) xl_cell) :
  write_data_row row data_row worksheet !! (row', col') =
  if decide (row = row')
  then match data_cell data_row col' with
       | Some v => Some v
       | None => worksheet !! (row', col')
       end
  else worksheet !! (row', col').
Proof.
  unfold write_data_row. rewrite !lookup_write.
  destruct (decide (row = row')) as [->|Hne].
  - destruct col' as [|[|[|col']]]; simpl;
      repeat (case_decide; try lia; try tauto); try reflexivity.
  - repeat (case_decide; try tauto); reflexivity.
Qed.

Lemma lookup_write_data_rows (start_row : nat) (stats_df : StatsTable) :
  forall (row_idx : nat) (worksheet : gmap (nat * nat) xl_cell) (row col : nat),
    write_data_rows start_row row_idx stats_df worksheet !! (row, col) =
    match (if (start_row + 2 + row_idx <=? row)%nat
           then stats_df !! (row - (start_row + 2 + row_idx))%nat
           else None) with
    | Some data_row =>
      match data_cell data_row col with
      | Some v => Some v
      | None => worksheet !! (row, col)
      end
    | None => worksheet !! (row, col)
    end.
Proof.
  induction stats_df as [|data_row stats_df IH]; intros row_idx worksheet row col.
  - simpl. destruct (_ <=? _)%nat; reflexivity.
  - cbn [write_data_rows]. rewrite IH, lookup_write_data_row.
    destruct (start_row + 2 + S row_idx <=? row)%nat eqn:E1.
    + apply Nat.leb_le in E1.
      assert ((start_row + 2 + row_idx <=? row)%nat = true) as -> by (apply Nat.leb_le; lia).
      replace (row - (start_row + 2 + row_idx))%nat
        with (S (row - (start_row + 2 + S row_idx))) by lia.
      cbn [lookup list_lookup].
      rewrite decide_False by lia. reflexivity.
    + apply Nat.leb_gt in E1.
      destruct (decide (start_row + 2 + row_idx = row)%nat) as [<-|Hne].
      * rewrite Nat.leb_refl, Nat.sub_diag. reflexivity.
      * assert ((start_row + 2 + row_idx <=? row)%nat = false) as ->
          by (apply Nat.leb_gt; lia).
        reflexivity.
Qed.

(** Writing one section changes the cells of that section and no other. *)
Lemma lookup_write_section (start_row : nat) (location_range : string)
    (stats_df : StatsTable) (worksheet : gmap (nat * nat) xl_cell) (row col : nat) :
  write_data_rows start_row 0 stats_df
    (write_headers start_row (write start_row 0 (Bold location_range) worksheet))
    !! (row, col) =
  match section_cell start_row location_range stats_df row col with
  | Some v => Some v
  | None => worksheet !! (row, col)
  end.
Proof.
  rewrite lookup_write_data_rows. unfold section_cell, write_headers.
  rewrite !lookup_write. rewrite Nat.add_0_r.
  destruct (row <? start_row)%nat eqn:E0.
  - apply Nat.ltb_lt in E0.
    assert ((start_row + 2 <=? row)%nat = false) as -> by (apply Nat.leb_gt; lia).
    repeat (case_decide; try lia); reflexivity.
  - apply Nat.ltb_ge in E0.
    destruct (row - start_row)%nat as [|[|i]] eqn:E.
    + assert ((start_row + 2 <=? row)%nat = false) as -> by (apply Nat.leb_gt; lia).
      destruct col as [|col]; repeat (case_decide; try lia); reflexivity.
    + assert ((start_row + 2 <=? row)%nat = false) as -> by (apply Nat.leb_gt; lia).
      destruct col as [|[|[|col]]]; simpl;
        repeat (case_decide; try lia); reflexivity.
    + assert ((start_row + 2 <=? row)%nat = true) as -> by (apply Nat.leb_le; lia).
      replace (row - (start_row + 2))%nat with i by lia.
      destruct (stats_df !! i) as [data_row|];
        [destruct (data_cell data_row col); [reflexivity|]|];
        repeat (case_decide; try lia); reflexivity.
Qed.

Lemma section_cell_outside (start_row : nat) (location_range : string)
    (stats_df : StatsTable) (row col : nat) :
  (row < start_row \/ start_row + 2 + length stats_df <= row)%nat ->
  section_cell start_row location_range stats_df row col = None.
Proof.
  intros H. unfold section_cell.
  destruct (row <? start_row)%nat eqn:E0; [reflexivity|].
  apply Nat.ltb_ge in E0. destruct H as [H|H]; [lia|].
  destruct (row - start_row)%nat as [|[|i]] eqn:E; try lia.
  destruct (stats_df !! i) as [data_row|] eqn:El; [|reflexivity].
  apply lookup_lt_Some in El. lia.
Qed.

Lemma write_sections_above (sections : list (string * StatsTable)) :
  forall (start_row : nat) (worksheet : gmap (nat * nat) xl_cell) (row col : nat),
    (row < start_row)%nat ->
    write_sections start_row sections worksheet !! (row, col) = worksheet !! (row, col).
Proof.
  induction sections as [|[l t] sections IH]; intros start_row worksheet row col H;
    [reflexivity|].
  cbn [write_sections]. rewrite IH by lia.
  rewrite lookup_write_section, section_cell_outside by lia. reflexivity.
Qed.

Lemma write_sections_lookup (before : list (string * StatsTable))
    (location_range : string) (stats_df : StatsTable)
    (after : list (string * StatsTable)) :
  forall (start_row : nat) (worksheet : gmap (nat * nat) xl_cell) (row col : nat),
    (start_row + rows_used before <= row
     < start_row + rows_used before + length stats_df + 3)%nat ->
    write_sections start_row (before ++ (location_range, stats_df) :: after)
      worksheet !! (row, col) =
    match section_cell (start_row + rows_used before) location_range stats_df
            row col with
    | Some v => Some v
    | None => worksheet !! (row, col)
    end.
Proof.
  induction before as [|[l t] before IH]; intros start_row worksheet row col H.
  - unfold rows_used in *. simpl in *. rewrite Nat.add_0_r in *.
    rewrite write_sections_above by lia. apply lookup_write_section.
  - assert (rows_used ((l, t) :: before) = (length t + 3 + rows_used before)%nat)
      as Hused by reflexivity.
    rewrite Hused in *. cbn [app write_sections].
    rewrite IH by lia.
    replace (start_row + length t + 3 + rows_used before)%nat
      with (start_row + (length t + 3 + rows_used before))%nat by lia.
    rewrite lookup_write_section, (section_cell_outside start_row) by lia.
    reflexivity.
Qed.

(** X14.  On the summary sheet the sections follow one another without
    overlap: a section starts three rows below the last table row of the
    one before it, and every cell from its label row down to the blank row
    under its table shows what that section wrote, the label in bold, the
    three headers, the rows of its table in order, and nothing in the
    blank row or beyond the third column. *)
Theorem summary_sheet_shows_each_section (st : State)
    (before : list (string * StatsTable)) (location_range : string)
    (stats_df : StatsTable) (after : list (string * StatsTable))
    (row col : nat) :
  all_stats_sections st = before ++ (location_range, stats_df) :: after ->
  (rows_used before <= row < rows_used before + length stats_df + 3)%nat ->
  summary_sheet st !! (row, col) =
  section_cell (rows_used before) location_range stats_df row col.
Proof.
  intros Hs Hrow. unfold summary_sheet. rewrite Hs.
  rewrite (write_sections_lookup before location_range stats_df after 0 ∅ row col)
    by lia.
  simpl. destruct (section_cell _ _ _ _ _); [reflexivity | apply lookup_empty].
Qed.

Lemma summary_sheet_shows_each_section_witness :
  exists st,
    run 2 source_2022 [highfive_area] [april_2022; april_2023] keyless_cache
      = Some st /\
    summary_sheet st !! (6, 0)%nat = None /\
    summary_sheet st !! (7, 0)%nat =
      Some (Bold "highfive_area (2023-04-01 to 2023-04-03)") /\
    summary_sheet st !! (10, 1)%nat = Some (Text "missing").
Proof.
  destruct (returned
              (run 2 source_2022 [highfive_area] [april_2022; april_2023]
                 keyless_cache)
              (fun st =>
                 all_stats_sections st =
                 [("highfive_area (2022-04-01 to 2022-04-03)", table_2022)] ++
                 ("highfive_area (2023-04-01 to 2023-04-03)", table_2022) :: []))
    as (st & Hrun & Hs); [vm_compute; reflexivity|].
  exists st. split; [exact Hrun|]. split; [|split].
  - rewrite (summary_sheet_shows_each_section st []
               "highfive_area (2022-04-01 to 2022-04-03)" table_2022
               [("highfive_area (2023-04-01 to 2023-04-03)", table_2022)] 6 0 Hs);
      [reflexivity | vm_compute; lia].
  - rewrite (summary_sheet_shows_each_section st _ _ _ _ 7 0 Hs);
      [reflexivity | vm_compute; lia].
  - rewrite (summary_sheet_shows_each_section st _ _ _ _ 10 1 Hs);
      [reflexivity | vm_compute; lia].
Defined.

(** ** Numbers in the tables *)

Lemma Qsum_bounds (lo hi : Q) (vs : list Q) :
  Forall (fun v => lo <= v /\ v <= hi)%Q vs ->
  (inject_Z (Z.of_nat (length vs)) * lo <= Qsum vs /\
   Qsum vs <= inject_Z (Z.of_nat (length vs)) * hi)%Q.
Proof.
  induction 1 as [|v vs [Hlo Hhi] _ [IHlo IHhi]].
  - change (inject_Z (Z.of_nat (length (@nil Q)))) with 0%Q.
    change (Qsum []) with 0%Q. split; lra.
  - cbn [length Qsum fold_right]. fold (Qsum vs).
    rewrite Nat2Z.inj_succ, <- Z.add_1_r, inject_Z_plus.
    change (inject_Z 1) with 1%Q. split; lra.
Qed.

Lemma Forall_insert_sorted (P : Q -> Prop) (x : Q) (vs : list Q) :
  P x -> Forall P vs -> Forall P (insert_sorted x vs).
Proof.
  intros Hx. induction 1 as [|y vs Hy Hvs IH]; simpl.
  - constructor; [exact Hx | constructor].
  - destruct (Qle_bool x y).
    + constructor; [exact Hx|]. constructor; assumption.
    + constructor; assumption.
Qed.

Lemma Forall_sort_values (P : Q -> Prop) (vs : list Q) :
  Forall P vs -> Forall P (sort_values vs).
Proof.
  induction 1 as [|v vs Hv Hvs IH]; simpl; [constructor|].
  apply Forall_insert_sorted; assumption.
Qed.

Lemma Forall_nth_in (P : Q -> Prop) (vs : list Q) (i : nat) :
  Forall P vs -> (i < length vs)%nat -> P (nth i vs 0%Q).
Proof.
  intros H. revert i. induction H as [|v vs Hv Hvs IH]; intros i Hi;
    [simpl in Hi; lia|].
  destruct i as [|i]; [exact Hv|]. simpl. apply IH. simpl in Hi. lia.
Qed.

(** X15.  The mean and the median of a column lie between its smallest
    and its largest value: if every value is in [lo, hi], so are both. *)
Theorem mean_median_within_range (lo hi : Q) (vs : list Q) (m : Q) :
  Forall (fun v => lo <= v /\ v <= hi)%Q vs ->
  mean vs = Some m \/ median vs = Some m ->
  (lo <= m /\ m <= hi)%Q.
Proof.
  intros Hvs [Hm|Hm].
  - destruct vs as [|v vs]; [discriminate|].
    unfold mean in Hm. injection Hm as <-.
    destruct (Qsum_bounds lo hi (v :: vs) Hvs) as [H1 H2].
    assert (0 < inject_Z (Z.of_nat (length (v :: vs))))%Q as Hn.
    { change 0%Q with (inject_Z 0). rewrite <- Zlt_Qlt. simpl. lia. }
    split.
    + apply Qle_shift_div_l; [exact Hn|]. rewrite Qmult_comm. exact H1.
    + apply Qle_shift_div_r; [exact Hn|]. rewrite Qmult_comm. exact H2.
  - unfold median in Hm.
    pose proof (Forall_sort_values _ _ Hvs) as Hsorted.
    pose proof (length_sort_values vs) as Hlen.
    destruct (length (sort_values vs)) as [|n] eqn:E; [discriminate|].
    assert (S n / 2 < S n)%nat as Hmid by (apply Nat.div_lt; lia).
    destruct (Nat.even (S n)); injection Hm as <-.
    + assert (S n / 2 - 1 < S n)%nat as Hmid' by lia.
      rewrite <- E in Hmid, Hmid'.
      pose proof (Forall_nth_in _ _ _ Hsorted Hmid) as [H1 H2].
      pose proof (Forall_nth_in _ _ _ Hsorted Hmid') as [H3 H4].
      rewrite E in *. simpl in H1, H2, H3, H4 |- *. split.
      * apply Qle_shift_div_l; [reflexivity|]. lra.
      * apply Qle_shift_div_r; [reflexivity|]. lra.
    + rewrite <- E in Hmid.
      pose proof (Forall_nth_in _ _ _ Hsorted Hmid) as H. rewrite E in H. exact H.
Qed.

Lemma mean_median_within_range_witness :
  (500 <= Qsum [500; 1500; 1000] / inject_Z 3 /\
   Qsum [500; 1500; 1000] / inject_Z 3 <= 1500)%Q.
Proof.
  apply (mean_median_within_range 500 1500 [500; 1500; 1000]%Q).
  - repeat (constructor; [split; vm_compute; discriminate|]). constructor.
  - left. reflexivity.
Defined.

Lemma rint_close (q : Q) :
  (q - (1 # 2) <= inject_Z (rint q) /\ inject_Z (rint q) <= q + (1 # 2))%Q.
Proof.
  destruct q as [n d]. unfold rint. cbn [Qnum Qden].
  pose proof (Z.div_mod n (Z.pos d) ltac:(lia)) as Hdm.
  pose proof (Z.mod_pos_bound n (Z.pos d) ltac:(lia)) as Hb.
  set (f := (n / Z.pos d)%Z) in *. set (r := (n mod Z.pos d)%Z) in *.
  destruct (2 * r <? Z.pos d)%Z eqn:E1;
    [|destruct (Z.pos d <? 2 * r)%Z eqn:E2; [|destruct (Z.even f)]];
    try apply Z.ltb_lt in E1; try apply Z.ltb_ge in E1;
    try apply Z.ltb_lt in E2; try apply Z.ltb_ge in E2;
    unfold Qle, Qminus, Qplus, Qopp, inject_Z; cbn [Qnum Qden];
    rewrite ?Pos2Z.inj_mul; split; nia.
Qed.

(** X16.  A presented statistic is the exact statistic divided by 100,
    moved by at most 0.005 to a number with two decimals. *)
Theorem presented_value_is_close (q p : Q) :
  present (Some q) = Some p ->
  (q / 100 - (1 # 200) <= p /\ p <= q / 100 + (1 # 200))%Q /\
  exists z : Z, (p == z # 100)%Q.
Proof.
  unfold present. simpl. intros [= <-]. unfold round2.
  set (z := rint (q / 100 * 100)). split; [|exists z; apply Qred_correct].
  rewrite Qred_correct.
  assert ((z # 100) == inject_Z z * (1 # 100))%Q as ->
    by (unfold Qeq, Qmult, inject_Z; simpl; lia).
  destruct (rint_close (q / 100 * 100)) as [H1 H2]. fold z in H1, H2.
  split; lra.
Qed.

Lemma presented_value_is_close_witness :
  (1005 / 100 - (1 # 200) <= round2 (1005 / 100) /\
   round2 (1005 / 100) <= 1005 / 100 + (1 # 200))%Q.
Proof.
  exact (proj1 (presented_value_is_close 1005 (round2 (1005 / 100)) eq_refl)).
Defined.

Lemma pm2_5_values_to_save (rs : list RawRecord) :
  pm2_5_values (map to_save rs) = map (fun v => v / 100)%Q (pm2_5_values rs).
Proof.
  induction rs as [|r rs IH]; [reflexivity|].
  assert (forall r rs,
            pm2_5_values (r :: rs) =
            match value (pm2_5 r) with
            | Some v => v :: pm2_5_values rs
            | None => pm2_5_values rs
            end) as Hcons by reflexivity.
  cbn [map]. rewrite !Hcons, IH. unfold to_save.
  destruct (pm2_5 r) as [| |v] eqn:E; rewrite ?E; reflexivity.
Qed.

Lemma Qsum_div_100 (vs : list Q) :
  (Qsum (map (fun v => v / 100) vs) == Qsum vs / 100)%Q.
Proof.
  induction vs as [|v vs IH]; [reflexivity|].
  cbn [map Qsum fold_right]. fold (Qsum vs).
  fold (Qsum (map (fun v => v / 100)%Q vs)). rewrite IH. field.
Qed.

(** X19.  The extract holds the in-area records with pm2_5 divided by
    100, and its numbers agree with the summary: the mean of the extract's
    pm2_5 column equals the mean the Overall row was computed from, divided
    by 100, and the Overall average is that number rounded to two
    decimals. *)
Theorem extract_agrees_with_overall (gdf : DataFrame) (m : Q) :
  has_pm2_5 gdf = true ->
  mean (pm2_5_values (rows gdf)) = Some m ->
  exists m' overall,
    mean (pm2_5_values (map to_save (rows gdf))) = Some m' /\
    (m' == m / 100)%Q /\
    compute_overall_stats gdf = inr [overall] /\
    PM2_5_Average overall = Num (round2 (m / 100)).
Proof.
  intros Hcol Hm. rewrite pm2_5_values_to_save.
  destruct (pm2_5_values (rows gdf)) as [|v vs] eqn:E; [discriminate|].
  injection Hm as <-. eexists. eexists. split; [reflexivity|].
  split; [|split].
  - rewrite Qsum_div_100, length_map.
    assert (~ inject_Z (Z.of_nat (length (v :: vs))) == 0)%Q as Hn.
    { change 0%Q with (inject_Z 0). rewrite inject_Z_injective. simpl. lia. }
    change (Qsum (v :: vs)) with (v + Qsum vs)%Q.
    change (length (v :: vs)) with (S (length vs)) in *.
    revert Hn. generalize (inject_Z (Z.of_nat (S (length vs)))), (Qsum vs).
    intros n s Hn. field. exact Hn.
  - unfold compute_overall_stats. rewrite Hcol. reflexivity.
  - rewrite E. reflexivity.
Qed.

Lemma extract_agrees_with_overall_witness :
  exists m' overall,
    mean (pm2_5_values (map to_save (rows (normalize three_readings)))) = Some m' /\
    (m' == (Qsum [500; 1500; 1000]%Q / inject_Z 3) / 100)%Q /\
    compute_overall_stats (normalize three_readings) = inr [overall] /\
    PM2_5_Average overall = Num 10.
Proof.
  destruct (extract_agrees_with_overall (normalize three_readings)
              (Qsum [500; 1500; 1000]%Q / inject_Z 3) eq_refl eq_refl)
    as (m' & overall & H1 & H2 & H3 & H4).
  exists m', overall. split; [exact H1|]. split; [exact H2|].
  split; [exact H3|]. rewrite H4. vm_compute. reflexivity.
Defined.

Lemma HdRel_insert_sorted (a x : Q) (vs : list Q) :
  (a <= x)%Q -> HdRel Qle a vs -> HdRel Qle a (insert_sorted x vs).
Proof.
  intros Hax H. destruct vs as [|y vs]; simpl; [constructor; exact Hax|].
  destruct (Qle_bool x y); constructor; [exact Hax|].
  inversion H. assumption.
Qed.

Lemma Sorted_insert_sorted (x : Q) (vs : list Q) :
  Sorted Qle vs -> Sorted Qle (insert_sorted x vs).
Proof.
  induction 1 as [|y vs Hs IH Hhd]; simpl.
  - constructor; constructor.
  - destruct (Qle_bool x y) eqn:E.
    + apply Qle_bool_iff in E. constructor; [constructor; assumption|].
      constructor. exact E.
    + constructor; [exact IH|]. apply HdRel_insert_sorted; [|exact Hhd].
      apply Qlt_le_weak, Qnot_le_lt. intros Hle.
      apply Qle_bool_iff in Hle. congruence.
Qed.

Lemma Permutation_insert_sorted (x : Q) (vs : list Q) :
  insert_sorted x vs ≡ₚ x :: vs.
Proof.
  induction vs as [|y vs IH]; simpl; [reflexivity|].
  destruct (Qle_bool x y); [reflexivity|].
  rewrite IH. apply Permutation_swap.
Qed.

(** X20.  The median is taken from the column's own values in ascending
    order: sorting keeps every value, as often as it occurs, and leaves
    them in non-decreasing order. *)
Theorem sort_values_sorted_permutation (vs : list Q) :
  sort_values vs ≡ₚ vs /\ Sorted Qle (sort_values vs).
Proof.
  induction vs as [|v vs [IHp IHs]]; simpl.
  - split; [reflexivity | constructor].
  - split.
    + rewrite Permutation_insert_sorted, IHp. reflexivity.
    + apply Sorted_insert_sorted. exact IHs.
Qed.

(** ** File names *)

Lemma append_inj_l (s a b : string) : s +:+ a = s +:+ b -> a = b.
Proof. induction s as [|c s IH]; simpl; [auto|]. intros [= H]. auto. Qed.

Lemma append_inj_length (a b x y : string) :
  String.length a = String.length b ->
  a +:+ x = b +:+ y -> a = b /\ x = y.
Proof.
  revert b. induction a as [|c a IH]; intros [|c' b] Hlen H;
    simpl in *; try discriminate; [auto|].
  injection H as -> H. destruct (IH b) as [-> ->]; [lia | exact H | auto].
Qed.

Lemma length_append (a b : string) :
  String.length (a +:+ b) = (String.length a + String.length b)%nat.
Proof. induction a as [|c a IH]; simpl; [|rewrite IH]; reflexivity. Qed.

Lemma append_inj_r (a b s : string) : a +:+ s = b +:+ s -> a = b.
Proof.
  intros H. apply (append_inj_length a b s s); [|exact H].
  apply (f_equal String.length) in H. rewrite !length_append in H. lia.
Qed.

(** X17.  Two windows whose start dates have the same number of
    characters, as dates written year-month-day have, share a cache file
    only when their start dates and their end dates are the same
    strings. *)
Theorem cache_file_path_inj (w1 w2 : DateWindow) :
  String.length (start_date w1) = String.length (start_date w2) ->
  cache_file_path w1 = cache_file_path w2 ->
  start_date w1 = start_date w2 /\ end_date w1 = end_date w2.
Proof.
  intros Hlen H. unfold cache_file_path in H.
  apply append_inj_l, append_inj_l, append_inj_l in H.
  apply append_inj_length in H as [Hs H]; [|exact Hlen].
  split; [exact Hs|].
  apply append_inj_l in H. apply append_inj_r in H. exact H.
Qed.

Lemma cache_file_path_inj_witness :
  start_date april_2022 = start_date (mkWindow "2022-04-01" "2022-04-03" 0 0) /\
  end_date april_2022 = end_date (mkWindow "2022-04-01" "2022-04-03" 0 0).
Proof.
  apply cache_file_path_inj; reflexivity.
Defined.

(** Without the condition on the lengths two different windows can share
    a cache file. *)
Example cache_file_path_collision :
  cache_file_path (mkWindow "a_to_b" "c" 0 0) =
  cache_file_path (mkWindow "a" "b_to_c" 0 0).
Proof. reflexivity. Qed.

(** X18.  The extracts are written to the folder of the cache files, but
    an extract never lands on a cache file: the two kinds of path end
    differently. *)
Theorem csv_file_path_is_no_cache_file (location_name : string) (w w' : DateWindow) :
  csv_file_path location_name w <> cache_file_path w'.
Proof.
  intros H. apply (f_equal (fun s => List.last (String.list_ascii_of_string s) "x"%char)) in H.
  unfold csv_file_path, cache_file_path in H.
  rewrite !list_of_append in H.
  change (String.list_ascii_of_string ".csv")
    with (String.list_ascii_of_string ".cs" ++ ["v"%char]) in H.
  change (String.list_ascii_of_string ".json")
    with (String.list_ascii_of_string ".jso" ++ ["n"%char]) in H.
  rewrite !app_assoc, !List.last_last in H. discriminate.
Qed.
